(** * The autoencoder training and TFLite conversion scripts

    A shallow embedding of [Edge_Server_AI_Trained.py] and
    [Edge_Server_AI_CONVERT_to_TFlite.py].  Both files are module bodies made
    of calls into numpy, scikit-learn, Keras and the TFLite converter.  The
    embedding keeps that shape: a script is a tree of library calls, each call
    is an [op] with the arguments the source passes, and an interpreter runs a
    script against a file system and a [Library] that stands for what the
    frameworks compute.  What the frameworks compute (parsing a .npy file,
    training, quantizing) is a field of [Library] and is never fixed here;
    what the calls do to the file system and which exceptions Python itself
    raises is written out. *)

From Stdlib Require Import QArith Qround.
From stdpp Require Import gmap strings list fin_maps.


(** ** Python values *)

(** A Python exception: its class and its message. *)
Record exn := Exn { exn_class : string; exn_msg : string }.

(** An array element, as the 64 bits numpy stores for it. *)
Abbreviation scalar := Z (only parsing).

(** A file's contents. *)
Abbreviation bytes := (list Byte.byte) (only parsing).

(** A numpy array, seen along its first axis: a 0-d array holds one element;
    an array with at least one axis has shape [(length rows, *inner)] and
    [rows] lists its sub-arrays, each flattened. *)
Inductive ndarray :=
| Nd0 (dt : string) (x : scalar)
| NdN (dt : string) (inner : list nat) (rows : list (list scalar)).

(** [a.shape] *)
Definition shape (a : ndarray) : list nat :=
  match a with
  | Nd0 _ _ => []
  | NdN _ inner rows => length rows :: inner
  end.


(** [t[i]] on a tuple, for an index that is not negative. *)
Definition tuple_getitem (t : list nat) (i : nat) : exn + nat :=
  match t !! i with
  | Some v => inr v
  | None => inl (Exn "IndexError" "tuple index out of range")
  end.

(** [a[start:stop]] for bounds that are not negative: Python clamps both
    bounds to the length of the first axis; a 0-d array cannot be indexed. *)
Definition getitem_slice (a : ndarray) (start stop : nat) : exn + ndarray :=
  match a with
  | Nd0 _ _ =>
      inl (Exn "IndexError" "too many indices for array")
  | NdN dt inner rows =>
      let lo := start `min` length rows in
      let hi := stop `min` length rows in
      inr (NdN dt inner (take (hi - lo) (drop lo rows)))
  end.

(** A symbolic Keras tensor of the functional API: the input placeholder, or
    the output of a dense layer applied to a tensor. *)
Inductive ktensor :=
| KInput (shape : list nat)
| KDense (units : nat) (activation : string) (x : ktensor).

(** The dense layers between the input and [t], input side first. *)
Fixpoint dense_layers (t : ktensor) : list (nat * string) :=
  match t with
  | KInput _ => []
  | KDense units act x => dense_layers x ++ [(units, act)]
  end.

(** The placeholder a tensor is computed from. *)
Fixpoint input_of (t : ktensor) : ktensor :=
  match t with
  | KInput s => KInput s
  | KDense _ _ x => input_of x
  end.

Inductive optimizer := Adam (learning_rate : Q).

(** A Keras model: its graph, what [compile] recorded, and its parameters. *)
Record kmodel := KModel {
  inputs : ktensor;
  outputs : ktensor;
  compiled : option (optimizer * string);
  weights : list scalar
}.

(** [tf.lite.Optimize] *)
Inductive optimize := Optimize_DEFAULT.

(** The functions the scripts define and hand to a library as a value. *)
Inductive pyfun := fn_representative_data_gen.

(** A [TFLiteConverter] with the two attributes the script assigns. *)
Record converter := Converter {
  conv_model : kmodel;
  optimizations : list optimize;
  representative_dataset : option pyfun
}.

(** An open file object. *)
Record file := File { file_name : string; file_mode : string }.

(** ** Library calls *)

(** The library entry points the two scripts call, with their arguments.
    [Dense units activation x] is [Dense(units, activation=...)(x)];
    [yield_] is the [yield] of a generator body. *)
Inductive op :=
| np_load (path : string)
| train_test_split (data : ndarray) (test_size : Q) (random_state : Z)
| Input (shape : list nat)
| Dense (units : nat) (activation : string) (x : ktensor)
| Model (inputs outputs : ktensor)
| Adam_ (learning_rate : Q)
| compile (m : kmodel) (optimizer : optimizer) (loss : string)
| fit (m : kmodel) (x y : ndarray) (validation_data : ndarray * ndarray)
      (epochs batch_size : nat)
| save (m : kmodel) (path : string)
| print (msg : string)
| load_model (path : string)
| from_keras_model (m : kmodel)
| convert (c : converter)
| open_ (path mode : string)
| write (f : file) (data : bytes)
| yield_ (sample : list ndarray).

(** What a call evaluates to.  [compile] and [fit] change the model object in
    place; here they hand the changed model back. *)
Definition resp (c : op) : Set :=
  match c with
  | np_load _ => ndarray
  | train_test_split _ _ _ => (ndarray * ndarray)%type
  | Input _ | Dense _ _ _ => ktensor
  | Model _ _ => kmodel
  | Adam_ _ => optimizer
  | compile _ _ _ | fit _ _ _ _ _ _ => kmodel
  | save _ _ | print _ | yield_ _ => unit
  | load_model _ => kmodel
  | from_keras_model _ => converter
  | convert _ => bytes
  | open_ _ _ => file
  | write _ _ => nat
  end.

(** The callee's name as the source spells it. *)
Definition op_name (c : op) : string :=
  match c with
  | np_load _ => "np.load"
  | train_test_split _ _ _ => "train_test_split"
  | Input _ => "Input"
  | Dense _ _ _ => "Dense"
  | Model _ _ => "Model"
  | Adam_ _ => "Adam"
  | compile _ _ _ => "model.compile"
  | fit _ _ _ _ _ _ => "model.fit"
  | save _ _ => "model.save"
  | print _ => "print"
  | load_model _ => "load_model"
  | from_keras_model _ => "from_keras_model"
  | convert _ => "converter.convert"
  | open_ _ _ => "open"
  | write _ _ => "write"
  | yield_ _ => "yield"
  end.

(** ** Scripts *)

(** A script: it returns, raises, or calls a library and goes on with the
    call's value.  Nothing in it catches an exception. *)
Inductive script (A : Type) : Type :=
| Ret (a : A)
| Raise (e : exn)
| Call (c : op) (k : resp c -> script A).
Arguments Ret {A} a.
Arguments Raise {A} e.
Arguments Call {A} c k.

Fixpoint bind {A B} (m : script A) (f : A -> script B) : script B :=
  match m with
  | Ret a => f a
  | Raise e => Raise e
  | Call c k => Call c (fun r => bind (k r) f)
  end.

#[global] Instance script_ret : MRet script := @Ret.
#[global] Instance script_bind : MBind script := fun A B f m => bind m f.

Definition call (c : op) : script (resp c) := Call c Ret.

(** A pure Python expression that may raise. *)
Definition eval {A} (r : exn + A) : script A :=
  match r with
  | inl e => Raise e
  | inr a => Ret a
  end.

(** [for x in l: body] *)
Fixpoint for_each {A} (l : list A) (body : A -> script unit) : script unit :=
  match l with
  | [] => Ret tt
  | x :: l' => body x ≫= fun _ => for_each l' body
  end.

(** [range(n)] *)
Definition range (n : nat) : list nat := seq 0 n.

(** ** What the frameworks compute *)

(** The file system: the contents of each file that exists, by path. *)
Abbreviation fs := (gmap string (list Byte.byte)) (only parsing).

(** The parts of numpy, scikit-learn, Keras, the TFLite converter and the
    operating system the scripts rely on and this development leaves open.
    Every theorem below holds for every [Library]. *)
Class Library := {
  (** an exception a call raises for a reason of the library's own
      (argument validation, resources, permissions) *)
  raises : fs -> op -> option exn;
  (** the array a .npy file holds *)
  npy_decode : list Byte.byte -> exn + ndarray;
  (** the cast of one element from a dtype to a dtype *)
  astype_cast : string -> string -> Z -> Z;
  (** [RandomState(seed).permutation(n)] *)
  rng_permutation : Z -> nat -> list nat;
  (** the parameters a fresh model starts with *)
  init_weights : ktensor -> ktensor -> list Z;
  (** the parameters training ends with *)
  fit_weights :
    kmodel -> ndarray -> ndarray -> ndarray * ndarray -> nat -> nat -> list Z;
  (** the HDF5 serialisation of a model and its reading *)
  h5_encode : kmodel -> list Byte.byte;
  h5_decode : list Byte.byte -> exn + kmodel;
  (** how often [convert] iterates the representative dataset *)
  calibration_passes : nat;
  (** the flatbuffer the converter produces from a model, the optimizations
      and the samples of each pass *)
  tflite_convert :
    kmodel -> list optimize -> list (list (list ndarray)) ->
    exn + list Byte.byte
}.

(** ** Running a script *)

(** Where a call is made: in the module body, or in the body of a function
    of the script that a library called back. *)
Inductive frame := InModule | InFunction (f : pyfun).

#[global] Instance pyfun_eq_dec : EqDecision pyfun.
Proof. solve_decision. Defined.

#[global] Instance frame_eq_dec : EqDecision frame.
Proof. solve_decision. Defined.

(** One call of a run, with its value or the exception it raised. *)
Record event := Event {
  ev_frame : frame;
  ev_op : op;
  ev_res : exn + resp ev_op
}.

(** A run: the calls made in order of completion, the value or the exception
    the script ends with, and the file system it leaves. *)
Record outcome (A : Type) := Outcome {
  trace : list event;
  result : exn + A;
  final : gmap string (list Byte.byte)
}.
Arguments Outcome {A} trace result final.
Arguments trace {A} o.
Arguments result {A} o.
Arguments final {A} o.

(** What one call does: the calls made inside it, its value, the files. *)
Definition handler := forall c : op, fs -> outcome (resp c).

Fixpoint run {A} (fr : frame) (h : handler) (s : script A) (w : fs)
  : outcome A :=
  match s with
  | Ret a => Outcome [] (inr a) w
  | Raise e => Outcome [] (inl e) w
  | Call c k =>
      let o := h c w in
      match result o with
      | inl e => Outcome (trace o ++ [Event fr c (inl e)]) (inl e) (final o)
      | inr v =>
          let o' := run fr h (k v) (final o) in
          Outcome (trace o ++ Event fr c (inr v) :: trace o')
                  (result o') (final o')
      end
  end.

(** The samples a generator body yielded, read off its run. *)
Definition yielded (tr : list event) : list (list ndarray) :=
  omap (fun ev => match ev_op ev with
                  | yield_ sample => Some sample
                  | _ => None
                  end) tr.

Section Semantics.
Context {L : Library}.

(** *** numpy *)

(** [a.astype(dt)] *)
Definition astype (a : ndarray) (dt : string) : ndarray :=
  match a with
  | Nd0 dt0 x => Nd0 dt (astype_cast dt0 dt x)
  | NdN dt0 inner rows => NdN dt inner (map (map (astype_cast dt0 dt)) rows)
  end.

(** [np.load(path)] *)
Definition numpy_load (w : fs) (path : string) : exn + ndarray :=
  match w !! path with
  | None => inl (Exn "FileNotFoundError" path)
  | Some b => npy_decode b
  end.

(** [tf.keras.models.load_model(path)] *)
Definition keras_load_model (w : fs) (path : string) : exn + kmodel :=
  match w !! path with
  | None => inl (Exn "OSError" path)
  | Some b => h5_decode b
  end.

(** *** scikit-learn: [train_test_split] on one array, shuffling, with a
    float [test_size] and no [train_size] *)

(** [_num_samples]: the length of the first axis. *)
Definition num_samples (a : ndarray) : exn + nat :=
  match a with
  | Nd0 _ _ => inl (Exn "TypeError" "Singleton array cannot be considered a valid collection.")
  | NdN _ _ rows => inr (length rows)
  end.

(** [_validate_shuffle_split]: [n_test = ceil(test_size * n_samples)],
    [n_train = n_samples - n_test], and an empty training set is refused.
    The product is taken exactly; for 0.2 and fewer than 2^50 rows the
    float product has the same ceiling. *)
Definition validate_shuffle_split (n_samples : nat) (test_size : Q)
  : exn + nat * nat :=
  if Qle_bool test_size 0 || Qle_bool 1 test_size then
    inl (Exn "ValueError" "test_size should be in the (0, 1) range")
  else
    let n_test := Z.to_nat (Qceiling (test_size * inject_Z (Z.of_nat n_samples))) in
    let n_train := n_samples - n_test in
    if decide (n_train = 0) then
      inl (Exn "ValueError" "the resulting train set will be empty")
    else inr (n_train, n_test).

(** [_safe_indexing(a, indices)]: the rows at [indices], in that order. *)
Definition safe_indexing (a : ndarray) (indices : list nat) : exn + ndarray :=
  match a with
  | Nd0 _ _ => inl (Exn "IndexError" "too many indices for array")
  | NdN dt inner rows =>
      match mapM (fun i => rows !! i) indices with
      | Some rs => inr (NdN dt inner rs)
      | None => inl (Exn "IndexError" "index is out of bounds for axis 0")
      end
  end.

(** [ShuffleSplit]: the first [n_test] entries of the permutation index the
    test rows, the next [n_train] the training rows; the result lists the
    training part first. *)
Definition sklearn_train_test_split (data : ndarray) (test_size : Q)
    (random_state : Z) : exn + ndarray * ndarray :=
  match num_samples data with
  | inl e => inl e
  | inr n_samples =>
      match validate_shuffle_split n_samples test_size with
      | inl e => inl e
      | inr (n_train, n_test) =>
          let permutation := rng_permutation random_state n_samples in
          let ind_test := take n_test permutation in
          let ind_train := take n_train (drop n_test permutation) in
          match safe_indexing data ind_train, safe_indexing data ind_test with
          | inr a_train, inr a_test => inr (a_train, a_test)
          | inl e, _ | _, inl e => inl e
          end
      end
  end.

(** *** Files *)

(** [open] modes that empty the file, and modes that allow [write]. *)
Definition truncating (mode : string) : bool :=
  bool_decide (mode = "w") || bool_decide (mode = "wb").
Definition writable (mode : string) : bool :=
  truncating mode || bool_decide (mode = "a") || bool_decide (mode = "ab").

(** *** The converter's calibration *)

(** [convert] iterates the representative dataset to its end, once per pass;
    an exception raised in the generator body leaves [convert] as it is. *)
Fixpoint calibrate (gen : fs -> outcome unit) (passes : nat) (w : fs)
  : outcome (list (list (list ndarray))) :=
  match passes with
  | 0 => Outcome [] (inr []) w
  | S p =>
      let o := gen w in
      match result o with
      | inl e => Outcome (trace o) (inl e) (final o)
      | inr _ =>
          let o' := calibrate gen p (final o) in
          Outcome (trace o ++ trace o')
                  (match result o' with
                   | inl e => inl e
                   | inr samples => inr (yielded (trace o) :: samples)
                   end)
                  (final o')
      end
  end.

(** *** One call *)

(** What a call does once the library has accepted it.  [callback f] runs
    the script's function [f] when a library calls it.  Only [save], [open]
    and [write] change files: [open] in a writing mode creates the file, and
    empties it unless the mode appends; [write] adds the bytes at the end.
    The script never closes the file: the bytes are in the file when the
    statement ends, as in CPython, which drops the file object there. *)
Definition respond (callback : pyfun -> fs -> outcome unit) (c : op) (w : fs)
  : outcome (resp c) :=
  match c as c0 return outcome (resp c0) with
  | np_load path => Outcome [] (numpy_load w path) w
  | train_test_split data test_size random_state =>
      Outcome [] (sklearn_train_test_split data test_size random_state) w
  | Input sh => Outcome [] (inr (KInput sh)) w
  | Dense units act x => Outcome [] (inr (KDense units act x)) w
  | Model i o => Outcome [] (inr (KModel i o None (init_weights i o))) w
  | Adam_ lr => Outcome [] (inr (Adam lr)) w
  | compile m opt loss =>
      Outcome [] (inr (KModel (inputs m) (outputs m) (Some (opt, loss)) (weights m))) w
  | fit m x y vd epochs batch_size =>
      match compiled m with
      | None =>
          Outcome [] (inl (Exn "RuntimeError" "You must compile your model before training")) w
      | Some _ =>
          Outcome [] (inr (KModel (inputs m) (outputs m) (compiled m)
                             (fit_weights m x y vd epochs batch_size))) w
      end
  | save m path => Outcome [] (inr tt) (<[path := h5_encode m]> w)
  | print _ => Outcome [] (inr tt) w
  | load_model path => Outcome [] (keras_load_model w path) w
  | from_keras_model m => Outcome [] (inr (Converter m [] None)) w
  | convert cv =>
      match representative_dataset cv with
      | None =>
          Outcome [] (tflite_convert (conv_model cv) (optimizations cv) []) w
      | Some f =>
          let o := calibrate (callback f) calibration_passes w in
          match result o with
          | inl e => Outcome (trace o) (inl e) (final o)
          | inr samples =>
              Outcome (trace o)
                      (tflite_convert (conv_model cv) (optimizations cv) samples)
                      (final o)
          end
      end
  | open_ path mode =>
      if truncating mode then
        Outcome [] (inr (File path mode)) (<[path := []]> w)
      else if writable mode then
        Outcome [] (inr (File path mode)) (<[path := default [] (w !! path)]> w)
      else match w !! path with
           | None => Outcome [] (inl (Exn "FileNotFoundError" path)) w
           | Some _ => Outcome [] (inr (File path mode)) w
           end
  | write f data =>
      if writable (file_mode f) then
        Outcome [] (inr (length data))
                (<[file_name f := default [] (w !! file_name f) ++ data]> w)
      else Outcome [] (inl (Exn "UnsupportedOperation" "not writable")) w
  | yield_ _ => Outcome [] (inr tt) w
  end.

(** [yield] is the language's; every other call is into a library. *)
Definition is_library_call (c : op) : bool :=
  match c with
  | yield_ _ => false
  | _ => true
  end.

(** A library call: the library may refuse it, leaving the files as they
    are; otherwise it does what [respond] says. *)
Definition handle (callback : pyfun -> fs -> outcome unit) : handler :=
  fun c w =>
    if is_library_call c then
      match raises w c with
      | Some e => Outcome [] (inl e) w
      | None => respond callback c w
      end
    else respond callback c w.

(** ** The scripts

    The [import] statements are left out: a script is what its module body
    does once the libraries are loaded. *)

(** [representative_data_gen] of Edge_Server_AI_CONVERT_to_TFlite.py, lines
    11 to 15. *)
Definition representative_data_gen : script unit :=
  data ← call (np_load "data/windows_features.npy");
  for_each (range 100) (fun i =>
    window ← eval (getitem_slice data i (i + 1));
    call (yield_ [astype window "float32"])).

(** The body of each function of the scripts. *)
Definition body (f : pyfun) : script unit :=
  match f with
  | fn_representative_data_gen => representative_data_gen
  end.

(** A function a library calls back runs in a frame of its own; it calls no
    library that calls back in turn. *)
Definition no_callback : pyfun -> fs -> outcome unit :=
  fun _ w => Outcome [] (inl (Exn "RuntimeError" "nested callback")) w.

Definition run_function (f : pyfun) (w : fs) : outcome unit :=
  run (InFunction f) (handle no_callback) (body f) w.

(** Running a module body. *)
Definition exec {A} (s : script A) (w : fs) : outcome A :=
  run InModule (handle run_function) s w.

(** Edge_Server_AI_Trained.py, lines 15 to 30. *)
Definition Edge_Server_AI_Trained : script unit :=
  data ← call (np_load "data/windows_features.npy");
  '(X_train, X_val) ← call (train_test_split data 0.2 42);
  input_dim ← eval (tuple_getitem (shape X_train) 1);
  inp ← call (Input [input_dim]);
  h ← call (Dense 64 "relu" inp);
  h ← call (Dense 32 "relu" h);
  z ← call (Dense 16 "relu" h);
  h2 ← call (Dense 32 "relu" z);
  h2 ← call (Dense 64 "relu" h2);
  out ← call (Dense input_dim "linear" h2);
  model ← call (Model inp out);
  adam ← call (Adam_ 1e-3);
  model ← call (compile model adam "mse");
  model ← call (fit model X_train X_train (X_val, X_val) 50 64);
  _ ← call (save model "models/autoencoder.h5");
  call (print "Saved Keras model -> models/autoencoder.h5").

(** Edge_Server_AI_CONVERT_to_TFlite.py, lines 6 to 19. *)
Definition Edge_Server_AI_CONVERT_to_TFlite : script unit :=
  model ← call (load_model "models/autoencoder.h5");
  converter ← call (from_keras_model model);
  let converter :=
    Converter (conv_model converter) [Optimize_DEFAULT]
              (representative_dataset converter) in
  let converter :=
    Converter (conv_model converter) (optimizations converter)
              (Some fn_representative_data_gen) in
  tflite_model ← call (convert converter);
  f ← call (open_ "models/autoencoder.tflite" "wb");
  _ ← call (write f tflite_model);
  call (print "Wrote models/autoencoder.tflite").

End Semantics.

(** ** Observing a run *)

(** A call's value, as the dynamically typed value Python sees. *)
Inductive value :=
| VNone
| VInt (n : nat)
| VArray (a : ndarray)
| VTuple (a b : ndarray)
| VTensor (t : ktensor)
| VModel (m : kmodel)
| VOptimizer (o : optimizer)
| VConverter (c : converter)
| VBytes (b : list Byte.byte)
| VFile (f : file).

Definition to_value (c : op) : resp c -> value :=
  match c as c0 return resp c0 -> value with
  | np_load _ => VArray
  | train_test_split _ _ _ => fun p => VTuple p.1 p.2
  | Input _ | Dense _ _ _ => VTensor
  | Model _ _ | compile _ _ _ | fit _ _ _ _ _ _ | load_model _ => VModel
  | Adam_ _ => VOptimizer
  | save _ _ | print _ | yield_ _ => fun _ => VNone
  | from_keras_model _ => VConverter
  | convert _ => VBytes
  | open_ _ _ => VFile
  | write _ _ => VInt
  end.

(** What a call of a run evaluated to, or the exception it raised. *)
Definition ev_value (ev : event) : exn + value :=
  match ev_res ev with
  | inl e => inl e
  | inr v => inr (to_value (ev_op ev) v)
  end.

(** A call made by the module body, not by a function called back. *)
Definition in_module (ev : event) : bool :=
  match ev_frame ev with
  | InModule => true
  | InFunction _ => false
  end.

(** The calls the module body itself made, in order. *)
Definition module_calls {A} (o : outcome A) : list op :=
  ev_op <$> List.filter in_module (trace o).

(** The pipeline step a call belongs to. *)
Inductive stage :=
| LoadArray | Split | Build | Fit | Save
| Reload | ConvertModel | WriteBytes | Report.

Definition stage_of (c : op) : stage :=
  match c with
  | np_load _ => LoadArray
  | train_test_split _ _ _ => Split
  | Input _ | Dense _ _ _ | Model _ _ | Adam_ _ | compile _ _ _ => Build
  | fit _ _ _ _ _ _ => Fit
  | save _ _ => Save
  | load_model _ => Reload
  | from_keras_model _ | convert _ | yield_ _ => ConvertModel
  | open_ _ _ | write _ _ => WriteBytes
  | print _ => Report
  end.

#[global] Instance stage_eq_dec : EqDecision stage.
Proof. solve_decision. Defined.

(** A sequence of steps with each run of equal neighbours counted once. *)
Fixpoint steps (l : list stage) : list stage :=
  match l with
  | [] => []
  | s :: l' =>
      match l' with
      | s' :: _ => if decide (s = s') then steps l' else s :: steps l'
      | [] => [s]
      end
  end.

(** A file a call reads or writes. *)
Inductive access := Reads (path : string) | Writes (path : string).

Definition file_access (c : op) : option access :=
  match c with
  | np_load path | load_model path => Some (Reads path)
  | save _ path => Some (Writes path)
  | open_ path mode =>
      Some (if writable mode then Writes path else Reads path)
  | write f _ => Some (Writes (file_name f))
  | _ => None
  end.

(** The file accesses of a run, those of called-back functions included. *)
Definition accesses {A} (o : outcome A) : list access :=
  omap (fun ev => file_access (ev_op ev)) (trace o).

(** ** A small library to run the scripts on *)

(** A toy .npy format: the first byte is the number of columns (0 for a 1-d
    array), every further byte is one row filled with that byte's value. *)
Definition demo_npy_decode (b : list Byte.byte) : exn + ndarray :=
  match b with
  | [] => inl (Exn "ValueError" "empty file")
  | k :: rest =>
      let cols := Byte.to_nat k in
      inr (NdN "float64" (if decide (cols = 0) then [] else [cols])
               (map (fun x => repeat (Z.of_nat (Byte.to_nat x)) (cols `max` 1)) rest))
  end.

Definition demo_model : kmodel :=
  KModel (KInput [3]) (KDense 3 "linear" (KInput [3])) None [].

Definition demo : Library := {|
  raises := fun _ _ => None;
  npy_decode := demo_npy_decode;
  astype_cast := fun _ _ x => x;
  rng_permutation := fun _ n => rev (seq 0 n);
  init_weights := fun _ _ => [];
  fit_weights := fun m _ _ _ _ _ => weights m;
  h5_encode := fun _ => [Byte.x89; Byte.x48; Byte.x44; Byte.x46];
  h5_decode := fun _ => inr demo_model;
  calibration_passes := 1;
  tflite_convert := fun _ _ _ => inr [Byte.x54; Byte.x46; Byte.x4c; Byte.x33]
|}.

(** Seven windows of three features each. *)
Definition demo_fs : gmap string (list Byte.byte) :=
  {[ "data/windows_features.npy" :=
       [Byte.x03; Byte.x0a; Byte.x0b; Byte.x0c; Byte.x0d; Byte.x0e; Byte.x0f; Byte.x10] ]}.

(** Five values in a 1-d array. *)
Definition flat_fs : gmap string (list Byte.byte) :=
  {[ "data/windows_features.npy" :=
       [Byte.x00; Byte.x01; Byte.x02; Byte.x03; Byte.x04; Byte.x05] ]}.

(** ** Specifications *)

(** What is known of the calls made while [convert] iterates the
    representative dataset: each is made in the generator's frame and is
    either the [np.load] of the feature file or a [yield]. *)
Definition generator_call (ev : event) : Prop :=
  ev_frame ev = InFunction fn_representative_data_gen /\
  (ev_op ev = np_load "data/windows_features.npy" \/
   exists sample, ev_op ev = yield_ sample).

(** The window the generator cuts at index [i] from an array with a first
    axis. *)
Definition window_at dt inner (rows : list (list Z)) (i : nat) : ndarray :=
  NdN dt inner
      (take ((i + 1) `min` length rows - i `min` length rows)
            (drop (i `min` length rows) rows)).

(** A call that returned a value, and a call that raised [e]. *)
Definition returned (ev : event) : Prop := exists v, ev_value ev = inr v.
Definition failed_with (e : exn) (ev : event) : Prop := ev_value ev = inl e.

(** No exception is handled in a run: its calls are calls that returned,
    followed, when the run ends with an exception, by the call that raised
    it and the calls that enclose that one, each ending with the same
    exception.  Nothing is called after a call has raised, and nothing turns
    an exception into a value. *)
Definition unhandled {A} (o : outcome A) : Prop :=
  exists completed failing,
    trace o = completed ++ failing /\
    Forall returned completed /\
    match result o with
    | inl e => Forall (failed_with e) failing
    | inr _ => failing = []
    end.

(** The calls of each script in the order of the source, by callee. *)
Definition training_calls : list string :=
  ["np.load"; "train_test_split"; "Input"; "Dense"; "Dense"; "Dense";
   "Dense"; "Dense"; "Dense"; "Model"; "Adam"; "model.compile"; "model.fit";
   "model.save"; "print"].

Definition conversion_calls : list string :=
  ["load_model"; "from_keras_model"; "converter.convert"; "open"; "write";
   "print"].

(** The steps of each script. *)
Definition training_pipeline : list stage :=
  [LoadArray; Split; Build; Fit; Save; Report].

Definition conversion_pipeline : list stage :=
  [Reload; ConvertModel; WriteBytes; Report].

(** A run follows a sequence of calls and steps: what it did is an initial
    part of the sequence, and all of it when the run ends without an
    exception. *)
Definition in_order {A} (calls : list string) (pipeline : list stage)
    (o : outcome A) : Prop :=
  op_name <$> module_calls o `prefix_of` calls /\
  steps (stage_of <$> module_calls o) `prefix_of` pipeline /\
  (forall a, result o = inr a ->
     op_name <$> module_calls o = calls /\
     steps (stage_of <$> module_calls o) = pipeline).

(** The network the training script builds on seven windows of three
    features: the dense layers after the input. *)
Definition demo_network : ktensor :=
  KDense 3 "linear"
    (KDense 64 "relu"
       (KDense 32 "relu"
          (KDense 16 "relu"
             (KDense 32 "relu" (KDense 64 "relu" (KInput [3])))))).

(** The hyperparameters a call carries are the ones the script fixes. *)
Definition fixed_hyperparameters (c : op) : Prop :=
  match c with
  | Adam_ learning_rate => learning_rate = 1e-3%Q
  | compile _ optimizer loss => optimizer = Adam 1e-3 /\ loss = "mse"
  | fit m _ _ _ epochs batch_size =>
      compiled m = Some (Adam 1e-3, "mse") /\ epochs = 50 /\ batch_size = 64
  | _ => True
  end.

(** The arguments of a [fit] call in a run [o]: the training part of the
    split of the loaded array is both input and target, the validation part
    is both validation input and validation target, and the model takes and
    returns vectors as long as a row of the array. *)
Definition autoencoder_fit {A} (o : outcome A) (c : op) : Prop :=
  forall m x y validation_data epochs batch_size,
    c = fit m x y validation_data epochs batch_size ->
    exists (data X_train X_val : ndarray) (input_dim : nat),
      Event InModule (np_load "data/windows_features.npy") (inr data)
        ∈ trace o /\
      Event InModule (train_test_split data 0.2 42) (inr (X_train, X_val))
        ∈ trace o /\
      x = X_train /\ y = X_train /\ validation_data = (X_val, X_val) /\
      shape data !! 1 = Some input_dim /\
      shape X_train !! 1 = Some input_dim /\
      shape X_val !! 1 = Some input_dim /\
      inputs m = KInput [input_dim] /\
      input_of (outputs m) = inputs m /\
      last (dense_layers (outputs m)) = Some (input_dim, "linear").

(** The model a [save] call of a run [o] writes, the trained one, takes and
    returns vectors as long as a row of the loaded array. *)
Definition autoencoder_saved {A} (o : outcome A) (c : op) : Prop :=
  forall m path,
    c = save m path ->
    path = "models/autoencoder.h5" /\
    exists (data : ndarray) (input_dim : nat),
      Event InModule (np_load "data/windows_features.npy") (inr data)
        ∈ trace o /\
      shape data !! 1 = Some input_dim /\
      inputs m = KInput [input_dim] /\
      input_of (outputs m) = inputs m /\
      last (dense_layers (outputs m)) = Some (input_dim, "linear").

(** The converter a [convert] call of a run [o] gets: made from the model
    [load_model] returned, with the default optimization and the script's
    generator as representative dataset. *)
Definition converter_configured {A} (o : outcome A) (c : op) : Prop :=
  forall cv,
    c = convert cv ->
    Event InModule (load_model "models/autoencoder.h5") (inr (conv_model cv))
      ∈ trace o /\
    optimizations cv = [Optimize_DEFAULT] /\
    representative_dataset cv = Some fn_representative_data_gen.

(** The bytes [convert] returned in a run [o] are what [write] was given and
    what the output file holds after the run. *)
Definition blob_written {A} (o : outcome A) : Prop :=
  exists cv blob,
    Event InModule (convert cv) (inr blob) ∈ trace o /\
    Event InModule
      (write (File "models/autoencoder.tflite" "wb") blob)
      (inr (length blob)) ∈ trace o /\
    final o !! "models/autoencoder.tflite" = Some blob.

(** The file accesses of each script. *)
Definition training_interface : list access :=
  [Reads "data/windows_features.npy"; Writes "models/autoencoder.h5"].

Definition conversion_interface : list access :=
  [Reads "models/autoencoder.h5"; Reads "data/windows_features.npy";
   Writes "models/autoencoder.tflite"].

(** A run from the file system [w] touches files only as [interface]
    allows, changes no file but [output], and, when it ends without an
    exception, has made the accesses [made]. *)
Definition file_based {A} (interface made : list access) (output : string)
    (w : gmap string (list Byte.byte)) (o : outcome A) : Prop :=
  accesses o ⊆ interface /\
  (forall path, path <> output -> final o !! path = w !! path) /\
  (forall a, result o = inr a -> made ⊆ accesses o).



(** Seven windows of three features: the array [demo_fs] holds. *)
Definition demo_windows : ndarray :=
  NdN "float64" [3]
      [[10; 10; 10]; [11; 11; 11]; [12; 12; 12]; [13; 13; 13];
       [14; 14; 14]; [15; 15; 15]; [16; 16; 16]]%Z.

(** What the split of a training run is called on and what it returns. *)
Definition split_of_loaded_array `{L : Library}
    (w : gmap string (list Byte.byte)) (ev : event) : Prop :=
  forall data test_size random_state,
    ev_op ev = train_test_split data test_size random_state ->
    test_size = 0.2%Q /\ random_state = 42%Z /\
    numpy_load w "data/windows_features.npy" = inr data /\
    forall a_train a_test,
      ev_value ev = inr (VTuple a_train a_test) ->
      sklearn_train_test_split data 0.2 42 = inr (a_train, a_test).

(** The training and validation parts of the split on seven windows. *)
Definition demo_train : ndarray :=
  NdN "float64" [3]
      [[14; 14; 14]; [13; 13; 13]; [12; 12; 12]; [11; 11; 11];
       [10; 10; 10]]%Z.

Definition demo_val : ndarray :=
  NdN "float64" [3] [[16; 16; 16]; [15; 15; 15]]%Z.

(** The split call of the training run on seven windows. *)
Definition demo_split : event :=
  Event InModule (train_test_split demo_windows 0.2 42)
        (inr (demo_train, demo_val)).

(** ** Further specifications and small libraries *)

(** The graph the training script builds for rows of [input_dim]
    features. *)
Definition autoencoder_graph (input_dim : nat) : ktensor :=
  KDense input_dim "linear"
    (KDense 64 "relu"
       (KDense 32 "relu"
          (KDense 16 "relu"
             (KDense 32 "relu" (KDense 64 "relu" (KInput [input_dim])))))).

(** The model the training script hands to [save]: the graph for
    [input_dim] features, compiled with Adam and "mse", with the parameters
    [fit] ends with on the two parts of the split. *)
Definition trained_model `{L : Library} (input_dim : nat)
    (X_train X_val : ndarray) : kmodel :=
  let inp := KInput [input_dim] in
  let out := autoencoder_graph input_dim in
  let compiled_model :=
    KModel inp out (Some (Adam 1e-3, "mse")) (init_weights inp out) in
  KModel inp out (Some (Adam 1e-3, "mse"))
         (fit_weights compiled_model X_train X_train (X_val, X_val) 50 64).

(** The samples of one pass over the generator on an array with a first
    axis. *)
Definition representative_samples `{L : Library} dt inner
    (rows : list (list Z)) : list (list ndarray) :=
  (fun i => [astype (window_at dt inner rows i) "float32"]) <$> range 100.

(** The calls of one pass over the generator on such an array. *)
Definition generator_pass `{L : Library} dt inner (rows : list (list Z))
  : list event :=
  Event (InFunction fn_representative_data_gen)
        (np_load "data/windows_features.npy") (inr (NdN dt inner rows))
  :: ((fun i =>
         Event (InFunction fn_representative_data_gen)
               (yield_ [astype (window_at dt inner rows i) "float32"])
               (inr tt)) <$> range 100).

(** A library like [demo] whose feature file holds a 0-d array. *)
Definition demo_0d : Library := {|
  raises := fun _ _ => None;
  npy_decode := fun _ => inr (Nd0 "float64" 7);
  astype_cast := fun _ _ x => x;
  rng_permutation := fun _ n => rev (seq 0 n);
  init_weights := fun _ _ => [];
  fit_weights := fun m _ _ _ _ _ => weights m;
  h5_encode := fun _ => [Byte.x89; Byte.x48; Byte.x44; Byte.x46];
  h5_decode := fun _ => inr demo_model;
  calibration_passes := 1;
  tflite_convert := fun _ _ _ => inr [Byte.x54; Byte.x46; Byte.x4c; Byte.x33]
|}.

(** The model the training run on [demo_fs] saves. *)
Definition demo_trained : kmodel :=
  KModel (KInput [3]) (autoencoder_graph 3) (Some (Adam 1e-3, "mse")) [].

(** A library like [demo] that reads back the model [demo_trained]. *)
Definition demo_reading_back : Library := {|
  raises := fun _ _ => None;
  npy_decode := demo_npy_decode;
  astype_cast := fun _ _ x => x;
  rng_permutation := fun _ n => rev (seq 0 n);
  init_weights := fun _ _ => [];
  fit_weights := fun m _ _ _ _ _ => weights m;
  h5_encode := fun _ => [Byte.x89; Byte.x48; Byte.x44; Byte.x46];
  h5_decode := fun _ => inr demo_trained;
  calibration_passes := 1;
  tflite_convert := fun _ _ _ => inr [Byte.x54; Byte.x46; Byte.x4c; Byte.x33]
|}.

(** A saved model and no feature file. *)
Definition model_only_fs : gmap string (list Byte.byte) :=
  {[ "models/autoencoder.h5" := [Byte.x89; Byte.x48; Byte.x44; Byte.x46] ]}.

(** A saved model beside the seven windows. *)
Definition model_and_windows_fs : gmap string (list Byte.byte) :=
  <[ "models/autoencoder.h5" := [Byte.x89; Byte.x48; Byte.x44; Byte.x46] ]>
    demo_fs.

(** The rows of the seven windows in [demo_fs]. *)
Definition seven_rows : list (list Z) :=
  [[10; 10; 10]; [11; 11; 11]; [12; 12; 12]; [13; 13; 13];
   [14; 14; 14]; [15; 15; 15]; [16; 16; 16]]%Z.

(** One window of three features. *)
Definition one_window_fs : gmap string (list Byte.byte) :=
  {[ "data/windows_features.npy" := [Byte.x03; Byte.x0a] ]}.

(** The calls of a training run that ends without an exception, on the
    array [data] of rows of [d] features, split into [X_train] and
    [X_val]. *)
Definition training_run_calls `{L : Library} (data X_train X_val : ndarray)
    (d : nat) : list op :=
  let inp := KInput [d] in
  let h1 := KDense 64 "relu" inp in
  let h2 := KDense 32 "relu" h1 in
  let z := KDense 16 "relu" h2 in
  let h3 := KDense 32 "relu" z in
  let h4 := KDense 64 "relu" h3 in
  let out := KDense d "linear" h4 in
  let model := KModel inp out None (init_weights inp out) in
  let compiled_model :=
    KModel inp out (Some (Adam 1e-3, "mse")) (init_weights inp out) in
  [np_load "data/windows_features.npy";
   train_test_split data 0.2 42;
   Input [d];
   Dense 64 "relu" inp; Dense 32 "relu" h1; Dense 16 "relu" h2;
   Dense 32 "relu" z; Dense 64 "relu" h3; Dense d "linear" h4;
   Model inp out;
   Adam_ 1e-3;
   compile model (Adam 1e-3) "mse";
   fit compiled_model X_train X_train (X_val, X_val) 50 64;
   save (trained_model d X_train X_val) "models/autoencoder.h5";
   print "Saved Keras model -> models/autoencoder.h5"].

(** The calls of a conversion run that ends without an exception, on the
    model [m] converted to [blob]. *)
Definition conversion_run_calls (m : kmodel) (blob : list Byte.byte)
  : list op :=
  [load_model "models/autoencoder.h5";
   from_keras_model m;
   convert (Converter m [Optimize_DEFAULT] (Some fn_representative_data_gen));
   open_ "models/autoencoder.tflite" "wb";
   write (File "models/autoencoder.tflite" "wb") blob;
   print "Wrote models/autoencoder.tflite"].





(** ** Reasoning about runs *)

(** A run with the calls [pre] made before it. *)
Definition extend {A} (pre : list event) (o : outcome A) : outcome A :=
  Outcome (pre ++ trace o) (result o) (final o).

Lemma extend_nil {A} (o : outcome A) : extend [] o = o.
Proof. by destruct o. Qed.

Section Stepping.
Context {L : Library}.

Lemma handle_library callback c (w : gmap string (list Byte.byte)) :
  is_library_call c = true ->
  handle callback c w =
    match raises w c with
    | Some e => Outcome [] (inl e) w
    | None => respond callback c w
    end.
Proof. unfold handle. by intros ->. Qed.

Lemma handle_yield callback sample (w : gmap string (list Byte.byte)) :
  handle callback (yield_ sample) w = Outcome [] (inr tt) w.
Proof. done. Qed.

(** A property of the run of [Call c k] follows from the three ways the call
    can end: refused by the library, failed, or returned. *)
Lemma exec_call {A} (P : outcome A -> Prop) pre c (k : resp c -> script A)
    (w : gmap string (list Byte.byte)) :
  is_library_call c = true ->
  (forall e, raises w c = Some e ->
     P (Outcome (pre ++ [Event InModule c (inl e)]) (inl e) w)) ->
  (raises w c = None -> forall e,
     result (respond run_function c w) = inl e ->
     P (Outcome (pre ++ trace (respond run_function c w)
                     ++ [Event InModule c (inl e)])
                (inl e) (final (respond run_function c w)))) ->
  (raises w c = None -> forall v,
     result (respond run_function c w) = inr v ->
     P (extend (pre ++ trace (respond run_function c w)
                    ++ [Event InModule c (inr v)])
               (exec (k v) (final (respond run_function c w))))) ->
  P (extend pre (exec (Call c k) w)).
Proof.
  intros Hlib Hrefused Hfailed Hreturned.
  unfold exec, extend. cbn [run]. rewrite !(handle_library _ _ _ Hlib).
  destruct (raises w c) as [e|] eqn:Hr.
  - cbn. by apply Hrefused.
  - destruct (result (respond run_function c w)) as [e|v] eqn:Hres.
    + cbn. by apply Hfailed.
    + cbn. specialize (Hreturned eq_refl v eq_refl).
      unfold exec, extend in Hreturned. cbn in Hreturned.
      by rewrite <- !(assoc_L (++)) in Hreturned.
Qed.

Lemma exec_start {A} (P : outcome A -> Prop) (s : script A)
    (w : gmap string (list Byte.byte)) :
  P (extend [] (exec s w)) -> P (exec s w).
Proof. by rewrite extend_nil. Qed.

Lemma exec_ret {A} (P : outcome A -> Prop) pre (a : A)
    (w : gmap string (list Byte.byte)) :
  P (Outcome pre (inr a) w) -> P (extend pre (exec (Ret a) w)).
Proof. unfold exec, extend. cbn. by rewrite app_nil_r. Qed.

Lemma exec_raise {A} (P : outcome A -> Prop) pre (e : exn)
    (w : gmap string (list Byte.byte)) :
  P (Outcome pre (inl e) w) -> P (extend pre (exec (Raise e : script A) w)).
Proof. unfold exec, extend. cbn. by rewrite app_nil_r. Qed.

End Stepping.

(** ** The generator and the calibration *)

Section Generator.
Context {L : Library}.

Abbreviation gen_frame := (InFunction fn_representative_data_gen).

(** A loop whose body only yields: one [yield] per element, no exception,
    no file touched. *)
Lemma run_for_each_yield {A} (sample : A -> list ndarray) body (l : list A)
    (w : gmap string (list Byte.byte)) :
  (forall x, body x = call (yield_ (sample x))) ->
  run gen_frame (handle no_callback) (for_each l body) w
  = Outcome ((fun x => Event gen_frame (yield_ (sample x)) (inr tt)) <$> l)
            (inr tt) w.
Proof.
  intros Hbody. induction l as [|x l IH]; [done|].
  cbn [for_each]. rewrite Hbody.
  cbn [mbind script_bind bind call run].
  rewrite !handle_yield. cbn [result trace final].
  by rewrite IH.
Qed.

(** The loop of the generator over an array with a first axis. *)
Lemma run_yield_loop dt inner rows (l : list nat)
    (w : gmap string (list Byte.byte)) :
  run gen_frame (handle no_callback)
      (for_each l (fun i =>
         window ← eval (getitem_slice (NdN dt inner rows) i (i + 1));
         call (yield_ [astype window "float32"]))) w
  = Outcome
      ((fun i =>
          Event gen_frame
            (yield_ [astype (window_at dt inner rows i) "float32"]) (inr tt))
         <$> l)
      (inr tt) w.
Proof. by apply run_for_each_yield. Qed.

(** The three ways a run of the generator can go. *)
Lemma run_generator_refused (w : gmap string (list Byte.byte)) e :
  raises w (np_load "data/windows_features.npy") = Some e ->
  run_function fn_representative_data_gen w
  = Outcome [Event gen_frame (np_load "data/windows_features.npy") (inl e)]
            (inl e) w.
Proof.
  intros Hr. unfold run_function, body, representative_data_gen.
  cbn [mbind script_bind bind call run].
  rewrite !handle_library by done. by rewrite Hr.
Qed.

Lemma run_generator_no_array (w : gmap string (list Byte.byte)) e :
  raises w (np_load "data/windows_features.npy") = None ->
  numpy_load w "data/windows_features.npy" = inl e ->
  run_function fn_representative_data_gen w
  = Outcome [Event gen_frame (np_load "data/windows_features.npy") (inl e)]
            (inl e) w.
Proof.
  intros Hr Hload. unfold run_function, body, representative_data_gen.
  cbn [mbind script_bind bind call run].
  rewrite !handle_library by done. rewrite Hr.
  cbn [respond result trace final]. by rewrite Hload.
Qed.

Lemma run_generator_loaded (w : gmap string (list Byte.byte)) data :
  raises w (np_load "data/windows_features.npy") = None ->
  numpy_load w "data/windows_features.npy" = inr data ->
  run_function fn_representative_data_gen w
  = extend [Event gen_frame (np_load "data/windows_features.npy") (inr data)]
      (run gen_frame (handle no_callback)
         (for_each (range 100) (fun i =>
            window ← eval (getitem_slice data i (i + 1));
            call (yield_ [astype window "float32"]))) w).
Proof.
  intros Hr Hload. unfold run_function, body, representative_data_gen.
  cbn [mbind script_bind bind call run].
  rewrite !handle_library by done. rewrite Hr.
  cbn [respond result trace final]. rewrite Hload.
  unfold extend. cbn [app]. do 3 f_equal.
Qed.

(** A 0-d array stops the generator at its first slice. *)
Lemma run_yield_loop_0d dt x (w : gmap string (list Byte.byte)) :
  run gen_frame (handle no_callback)
      (for_each (range 100) (fun i =>
         window ← eval (getitem_slice (Nd0 dt x) i (i + 1));
         call (yield_ [astype window "float32"]))) w
  = Outcome [] (inl (Exn "IndexError" "too many indices for array")) w.
Proof. done. Qed.

(** The generator writes no file and calls nothing but [np.load] and
    [yield]. *)
Lemma run_generator_facts (w : gmap string (list Byte.byte)) :
  final (run_function fn_representative_data_gen w) = w /\
  Forall generator_call (trace (run_function fn_representative_data_gen w)).
Proof.
  destruct (raises w (np_load "data/windows_features.npy")) as [e|] eqn:Hr.
  { rewrite (run_generator_refused _ _ Hr). split; [done|].
    constructor; [|done]. split; [done|by left]. }
  destruct (numpy_load w "data/windows_features.npy") as [e|data] eqn:Hload.
  { rewrite (run_generator_no_array _ _ Hr Hload). split; [done|].
    constructor; [|done]. split; [done|by left]. }
  rewrite (run_generator_loaded _ _ Hr Hload).
  destruct data as [dt x|dt inner rows].
  - rewrite run_yield_loop_0d. split; [done|].
    constructor; [|done]. split; [done|by left].
  - rewrite run_yield_loop. split; [done|]. cbn [extend trace app].
    constructor; [split; [done|by left]|].
    apply Forall_fmap, Forall_true. intros i. split; [done|].
    right. by eexists.
Qed.

(** Calibration iterates a generator that writes no file. *)
Lemma calibrate_facts (gen : gmap string (list Byte.byte) -> outcome unit)
    (passes : nat) (w : gmap string (list Byte.byte)) :
  (forall w', final (gen w') = w' /\ Forall generator_call (trace (gen w'))) ->
  final (calibrate gen passes w) = w /\
  Forall generator_call (trace (calibrate gen passes w)).
Proof.
  intros Hgen. revert w. induction passes as [|p IH]; intros w; [done|].
  cbn [calibrate]. destruct (Hgen w) as [Hfinal Htrace].
  destruct (result (gen w)); cbn [final trace]; [done|].
  rewrite Hfinal. destruct (IH w) as [IHfinal IHtrace].
  split; [done|]. by apply Forall_app.
Qed.

(** [convert] on a converter whose representative dataset is the script's
    generator: it leaves the files as they are, the calls made inside it are
    the generator's, and the bytes it returns are the converter's. *)
Lemma respond_convert_facts cv (w : gmap string (list Byte.byte)) :
  representative_dataset cv = Some fn_representative_data_gen ->
  final (respond run_function (convert cv) w) = w /\
  Forall generator_call (trace (respond run_function (convert cv) w)) /\
  (forall blob, result (respond run_function (convert cv) w) = inr blob ->
     exists samples,
       tflite_convert (conv_model cv) (optimizations cv) samples = inr blob).
Proof.
  intros Hgen. cbn [respond]. rewrite Hgen.
  destruct (calibrate_facts (run_function fn_representative_data_gen)
              calibration_passes w run_generator_facts) as [Hfinal Htrace].
  destruct (result (calibrate _ _ _)) as [e|samples];
    cbn [final trace result]; (split; [done|split; [done|]]); [done|].
  intros blob Hblob. by exists samples.
Qed.

(** The run of a call to [convert] with the script's generator. *)
Lemma exec_convert {A} (P : outcome A -> Prop) pre cv
    (k : list Byte.byte -> script A) (w : gmap string (list Byte.byte)) :
  representative_dataset cv = Some fn_representative_data_gen ->
  (forall e, raises w (convert cv) = Some e ->
     P (Outcome (pre ++ [Event InModule (convert cv) (inl e)]) (inl e) w)) ->
  (raises w (convert cv) = None -> forall inner e,
     Forall generator_call inner ->
     P (Outcome (pre ++ inner ++ [Event InModule (convert cv) (inl e)])
                (inl e) w)) ->
  (raises w (convert cv) = None -> forall inner samples blob,
     Forall generator_call inner ->
     tflite_convert (conv_model cv) (optimizations cv) samples = inr blob ->
     P (extend (pre ++ inner ++ [Event InModule (convert cv) (inr blob)])
               (exec (k blob) w))) ->
  P (extend pre (exec (Call (convert cv) k) w)).
Proof.
  intros Hgen Hrefused Hfailed Hreturned.
  destruct (respond_convert_facts cv w Hgen) as (Hfinal & Htrace & Hblob).
  apply exec_call; [done|done|..].
  - intros Hr e He. rewrite Hfinal. by apply Hfailed.
  - intros Hr blob Hres. rewrite Hfinal.
    destruct (Hblob blob Hres) as [samples Hsamples].
    by eapply Hreturned.
Qed.

End Generator.

Lemma truncating_wb : truncating "wb" = true.
Proof. reflexivity. Qed.

Lemma writable_wb : writable "wb" = true.
Proof. reflexivity. Qed.

(** Stepping through the run of a script, one call at a time: every way a
    call can end becomes a goal of its own. *)
Ltac simpl_response H :=
  lazymatch type of H with
  | result (respond _ (convert _) _) = _ => idtac
  | _ =>
      cbn [respond result compiled inputs outputs weights file_mode file_name] in H;
      rewrite ?truncating_wb, ?writable_wb in H;
      cbn [result] in H
  end.

Ltac simpl_call :=
  lazymatch goal with
  | |- context [respond _ (convert _) _] => idtac
  | |- _ =>
      cbn [respond compiled inputs outputs weights file_mode file_name];
      rewrite ?truncating_wb, ?writable_wb;
      cbn [trace final result app]
  end.

Ltac exec_step :=
  cbn [mbind script_bind bind call eval conv_model optimizations
       representative_dataset];
  lazymatch goal with
  | |- _ (extend _ (exec (Call (convert _) _) _)) =>
      apply exec_convert;
      [ reflexivity | intros ? ? | intros ? ? ? ? | intros ? ? ? ? ? ? ]
  | |- _ (extend _ (exec (call ?c) _)) => unfold call
  | |- _ (extend _ (exec (Call _ _) _)) =>
      apply exec_call;
      [ reflexivity
      | intros ? ?
      | let H := fresh "Hres" in
        intros ? ? H; simpl_response H; try discriminate H; simpl_call
      | let H := fresh "Hres" in
        intros ? ? H; simpl_response H; try discriminate H;
        try (injection H as <-); simpl_call ]
  | |- _ (extend _ (exec (Ret _) _)) => apply exec_ret
  | |- _ (extend _ (exec (Raise _) _)) => apply exec_raise
  | |- _ (extend _ (exec (mbind _ (eval ?x)) _)) => destruct x eqn:?
  | |- _ (extend _ (exec (match ?x with _ => _ end) _)) => destruct x
  end.

Ltac exec_all s w :=
  pattern (exec s w);
  lazymatch goal with
  | |- ?P _ =>
      let Q := fresh "Q" in
      set (Q := P); apply exec_start; unfold s
  end;
  repeat exec_step;
  lazymatch goal with Q := _ |- _ => subst Q; cbn beta end;
  repeat first [rewrite <- List.app_assoc | progress (cbn [app])].

(** ** Calls made inside [convert] *)

Lemma generator_calls_not_module (inner : list event) :
  Forall generator_call inner -> List.filter in_module inner = [].
Proof.
  induction 1 as [|ev inner [Hframe _] _ IH]; [done|].
  cbn [List.filter]. unfold in_module. by rewrite Hframe.
Qed.

Lemma generator_calls_accesses (inner : list event) :
  Forall generator_call inner ->
  Forall (fun a => a = Reads "data/windows_features.npy")
         (omap (fun ev => file_access (ev_op ev)) inner).
Proof.
  induction 1 as [|[fr c r] inner [_ [Hop|[sample Hop]]] _ IH]; [done|..];
    cbn in Hop; subst c; cbn; [by constructor|done].
Qed.

(** The module-level calls of a run whose trace has the calls of a
    [convert] in its middle. *)
Lemma module_calls_inner {A} pre inner post (r : exn + A)
    (w : gmap string (list Byte.byte)) :
  Forall generator_call inner ->
  module_calls (Outcome (pre ++ inner ++ post) r w)
  = module_calls (Outcome (pre ++ post) r w).
Proof.
  intros Hinner. unfold module_calls. cbn [trace].
  by rewrite !List.filter_app, (generator_calls_not_module _ Hinner).
Qed.

(** ** Exceptions are not handled *)

Lemma unhandled_no_calls {A} (o : outcome A) : trace o = [] -> unhandled o.
Proof.
  intros Htrace. exists [], []. split; [done|]. split; [done|].
  by destruct (result o).
Qed.

(** The run of any script leaves exceptions unhandled when the library calls
    do. *)
Lemma run_unhandled {A} fr (h : handler) (s : script A) :
  (forall c w, unhandled (h c w)) ->
  forall w : gmap string (list Byte.byte), unhandled (run fr h s w).
Proof.
  intros Hh. induction s as [a|e|c k IH]; intros w;
    [by apply unhandled_no_calls..|].
  cbn [run]. destruct (Hh c w) as (completed & failing & Htr & Hok & Hres).
  destruct (result (h c w)) as [e|v].
  - exists completed, (failing ++ [Event fr c (inl e)]). cbn.
    rewrite Htr, <- (assoc_L (++)). split; [done|]. split; [done|].
    apply Forall_app. split; [done|]. by constructor.
  - subst failing. rewrite app_nil_r in Htr.
    destruct (IH v (final (h c w)))
      as (completed' & failing' & Htr' & Hok' & Hres').
    exists (completed ++ Event fr c (inr v) :: completed'), failing'. cbn.
    rewrite Htr, Htr'. split; [by rewrite <- (assoc_L (++))|].
    split; [|done]. apply Forall_app. split; [done|].
    constructor; [|done]. by eexists.
Qed.

Section Unhandled.
Context {L : Library}.

Lemma calibrate_unhandled
    (gen : gmap string (list Byte.byte) -> outcome unit) (passes : nat) :
  (forall w, unhandled (gen w)) ->
  forall w, unhandled (calibrate gen passes w).
Proof.
  intros Hgen. induction passes as [|p IH]; intros w;
    [by apply unhandled_no_calls|].
  cbn [calibrate].
  destruct (Hgen w) as (completed & failing & Htr & Hok & Hres).
  destruct (result (gen w)) as [e|[]].
  - by exists completed, failing.
  - subst failing. rewrite app_nil_r in Htr.
    destruct (IH (final (gen w)))
      as (completed' & failing' & Htr' & Hok' & Hres').
    exists (completed ++ completed'), failing'. cbn.
    rewrite Htr, Htr'. split; [by rewrite <- (assoc_L (++))|].
    split; [by apply Forall_app|].
    by destruct (result (calibrate gen p (final (gen w)))).
Qed.

Lemma handle_unhandled callback :
  (forall f w, unhandled (callback f w)) ->
  forall c w, unhandled (handle callback c w).
Proof.
  intros Hcb c w. unfold handle.
  destruct (is_library_call c); [destruct (raises w c)|];
    [by apply unhandled_no_calls|..];
    (destruct c; try by apply unhandled_no_calls);
    cbn [respond];
    try (by destruct (compiled _); apply unhandled_no_calls);
    try (by repeat case_match; apply unhandled_no_calls).
  all: destruct (representative_dataset _) as [f|];
    [|by apply unhandled_no_calls].
  all: destruct (calibrate_unhandled (callback f) calibration_passes (Hcb f) w)
    as (completed & failing & Htr & Hok & Hres).
  all: destruct (result (calibrate _ _ _)) as [e|samples];
    [by exists completed, failing|].
  all: subst failing; exists completed, []; cbn.
  all: split; [done|]; split; [done|].
  all: by destruct (tflite_convert _ _ _).
Qed.

(** No script run by [exec] has an exception handled, whatever the library
    does. *)
Lemma exec_unhandled {A} (s : script A) (w : gmap string (list Byte.byte)) :
  unhandled (exec s w).
Proof.
  apply run_unhandled, handle_unhandled. intros f w'.
  apply run_unhandled, handle_unhandled. intros f' w''.
  by apply unhandled_no_calls.
Qed.

End Unhandled.

(** ** The order of the calls *)

(** Reading the module-level calls off the trace of a run. *)
Ltac eval_module_calls :=
  unfold module_calls;
  cbn [trace result List.filter in_module ev_frame ev_op app];
  repeat match goal with
         | H : Forall generator_call ?inner
           |- context [List.filter in_module (?inner ++ _)] =>
             rewrite (List.filter_app in_module inner),
                     (generator_calls_not_module inner H)
         end;
  cbn [List.filter in_module ev_frame ev_op fmap list_fmap app].

Ltac solve_in_order :=
  unfold in_order; eval_module_calls; cbn [op_name stage_of];
  split; [by eexists|split; [by eexists|]];
  intros ? ?; try discriminate; by split.

(** The module-level calls of a run of the training script are an initial
    part of: load the array, split, build the network (Input, six Dense,
    Model, Adam, compile), fit, save, print; the calls of a run of the
    conversion script are an initial part of: reload the model, convert
    (from_keras_model, convert), write (open, write), print.  A run that
    ends without an exception made all of them, each once, in this order. *)
Lemma calls_follow_source_order `{L : Library}
    (w : gmap string (list Byte.byte)) :
  in_order training_calls training_pipeline (exec Edge_Server_AI_Trained w) /\
  in_order conversion_calls conversion_pipeline
           (exec Edge_Server_AI_CONVERT_to_TFlite w).
Proof.
  split.
  - exec_all Edge_Server_AI_Trained w; solve_in_order.
  - exec_all Edge_Server_AI_CONVERT_to_TFlite w; solve_in_order.
Qed.

(** ** Failing before the output is written *)

Ltac solve_untouched :=
  let Hno := fresh "Hno" in
  intros ? ? Hno; cbn [final result] in *;
  first
    [ reflexivity
    | discriminate
    | exfalso; apply Hno; eval_module_calls; cbn [op_name];
      repeat constructor ].

(** C7. Neither script handles an exception, whatever the library does: in
    every run the calls that returned come first, and once a call has raised
    (a missing file, a shape the framework refuses, any framework error) the
    only calls that still end are the ones enclosing it, each with the same
    exception, which is what the run ends with.  A training run that ends
    with an exception without having reached [model.save] leaves every file
    as it was, and so does a conversion run that ends with an exception
    without having reached [open]: the output file is not produced. *)
Theorem failures_are_not_handled `{L : Library}
    (w : gmap string (list Byte.byte)) :
  unhandled (exec Edge_Server_AI_Trained w) /\
  unhandled (exec Edge_Server_AI_CONVERT_to_TFlite w) /\
  (forall e,
     result (exec Edge_Server_AI_Trained w) = inl e ->
     "model.save" ∉ op_name <$> module_calls (exec Edge_Server_AI_Trained w) ->
     final (exec Edge_Server_AI_Trained w) = w) /\
  (forall e,
     result (exec Edge_Server_AI_CONVERT_to_TFlite w) = inl e ->
     "open" ∉ op_name
                <$> module_calls (exec Edge_Server_AI_CONVERT_to_TFlite w) ->
     final (exec Edge_Server_AI_CONVERT_to_TFlite w) = w).
Proof.
  split; [apply exec_unhandled|]. split; [apply exec_unhandled|]. split.
  - exec_all Edge_Server_AI_Trained w; solve_untouched.
  - exec_all Edge_Server_AI_CONVERT_to_TFlite w; solve_untouched.
Qed.

(** ** The split *)

Section Split.
Context {L : Library}.

(** With [test_size=0.2] the test part has a fifth of the rows, rounded up,
    and the training part has the rest and is not empty. *)
Lemma validate_shuffle_split_fifth n n_train n_test :
  validate_shuffle_split n 0.2 = inr (n_train, n_test) ->
  n_test = (n + 4) / 5 /\ n_train = n - n_test /\ n_train <> 0.
Proof.
  unfold validate_shuffle_split. cbn [Qle_bool orb].
  change (Qle_bool 0.2 0 || Qle_bool 1 0.2) with false. cbv iota.
  assert (Z.to_nat (Qceiling (0.2 * inject_Z (Z.of_nat n))) = (n + 4) / 5)
    as ->.
  { unfold Qceiling, Qfloor, Qopp, Qmult, inject_Z. cbn [Qnum Qden].
    change (Z.pos (10 * 1)) with 10%Z.
    apply Nat2Z.inj. rewrite Nat2Z.inj_div, Nat2Z.inj_add.
    change (Z.of_nat 4) with 4%Z. change (Z.of_nat 5) with 5%Z.
    rewrite Z2Nat.id by (Z.div_mod_to_equations; lia).
    Z.div_mod_to_equations; lia. }
  case_decide; [done|]. intros [= <- <-]. done.
Qed.

(** What a successful split returns: the rows of the array at the indices
    the permutation gives, the test indices first in the permutation. *)
Lemma sklearn_train_test_split_inv data test_size seed a_train a_test :
  sklearn_train_test_split data test_size seed = inr (a_train, a_test) ->
  exists dt inner rows n_train n_test rows_train rows_test,
    data = NdN dt inner rows /\
    validate_shuffle_split (length rows) test_size = inr (n_train, n_test) /\
    mapM (fun i => rows !! i)
         (take n_train (drop n_test (rng_permutation seed (length rows))))
      = Some rows_train /\
    mapM (fun i => rows !! i)
         (take n_test (rng_permutation seed (length rows)))
      = Some rows_test /\
    a_train = NdN dt inner rows_train /\
    a_test = NdN dt inner rows_test.
Proof.
  unfold sklearn_train_test_split.
  destruct data as [dt x|dt inner rows]; [done|]. cbn [num_samples].
  destruct (validate_shuffle_split _ _) as [e|[n_train n_test]] eqn:Hv;
    [done|].
  cbn [safe_indexing].
  destruct (mapM (fun i => rows !! i) (take n_train _))
    as [rows_train|] eqn:Htrain; [|done].
  destruct (mapM (fun i => rows !! i) (take n_test _))
    as [rows_test|] eqn:Htest; [|done].
  intros [= <- <-]. by exists dt, inner, rows, n_train, n_test, rows_train, rows_test.
Qed.

(** Rows picked along a permutation of all indices are the rows, in another
    order. *)
Lemma rows_along_permutation (rows picked : list (list Z)) (indices : list nat) :
  indices ≡ₚ seq 0 (length rows) ->
  mapM (fun i => rows !! i) indices = Some picked ->
  picked ≡ₚ rows.
Proof.
  intros Hperm Hpicked. apply mapM_Some in Hpicked.
  assert (picked = (fun i => default [] (rows !! i)) <$> indices) as ->.
  { clear Hperm. induction Hpicked as [|i r indices picked Hi _ IH]; [done|].
    cbn. rewrite Hi. cbn. by f_equal. }
  rewrite Hperm.
  replace ((fun i => default [] (rows !! i)) <$> seq 0 (length rows))
    with rows; [done|].
  symmetry. apply list_eq. intros i.
  rewrite list_lookup_fmap.
  destruct (decide (i < length rows)) as [Hlt|Hge].
  - rewrite lookup_seq_lt by done. cbn.
    destruct (lookup_lt_is_Some_2 rows i Hlt) as [r Hr]. by rewrite Hr.
  - rewrite lookup_seq_ge by lia. by rewrite lookup_ge_None_2 by lia.
Qed.

(** The split of [test_size=0.2] is a partition of the rows, a fifth of them
    (rounded up) in the test part, when the generator's permutation is a
    permutation of the indices. *)
Lemma split_fifth_partition data seed a_train a_test :
  (forall n, rng_permutation seed n ≡ₚ seq 0 n) ->
  sklearn_train_test_split data 0.2 seed = inr (a_train, a_test) ->
  exists dt inner rows rows_train rows_test,
    data = NdN dt inner rows /\
    a_train = NdN dt inner rows_train /\
    a_test = NdN dt inner rows_test /\
    rows_train ++ rows_test ≡ₚ rows /\
    length rows_test = (length rows + 4) / 5 /\
    length rows_train = length rows - length rows_test.
Proof.
  intros Hperm Hsplit.
  destruct (sklearn_train_test_split_inv _ _ _ _ _ Hsplit)
    as (dt & inner & rows & n_train & n_test & rows_train & rows_test
        & -> & Hv & Htrain & Htest & -> & ->).
  exists dt, inner, rows, rows_train, rows_test.
  destruct (validate_shuffle_split_fifth _ _ _ Hv) as (Hn_test & Hn_train & Hne).
  assert (length (rng_permutation seed (length rows)) = length rows) as Hlen.
  { by rewrite (Hperm (length rows)), length_seq. }
  assert (n_test <= length rows) as Hle by lia.
  split; [done|]. split; [done|]. split; [done|].
  assert (length rows_test = n_test) as Hlt.
  { apply length_mapM in Htest. rewrite <- Htest, length_take. lia. }
  assert (length rows_train = n_train) as Hlr.
  { apply length_mapM in Htrain.
    rewrite <- Htrain, length_take, length_drop. lia. }
  split; [|lia].
  rewrite (comm (++)).
  apply (rows_along_permutation rows _ (rng_permutation seed (length rows)));
    [by apply Hperm|].
  rewrite <- (take_drop n_test (rng_permutation seed (length rows))) at 1.
  rewrite <- (take_ge (drop n_test (rng_permutation seed (length rows))) n_train)
    at 1 by (rewrite length_drop; lia).
  apply mapM_Some. apply Forall2_app; by apply mapM_Some.
Qed.

End Split.

(** ** The network *)

(** Splitting a property of every call of a run into one goal per call. *)
Ltac each_call :=
  cbn [trace];
  repeat first
    [ apply Forall_nil_2
    | apply Forall_cons_2
    | apply Forall_app_2 ];
  cbn [ev_op ev_frame ev_res].

(** An inner call of [convert] is not the call [c] when [c] is neither
    [np.load] nor a [yield]. *)
Ltac not_a_generator_call :=
  lazymatch goal with
  | H : Forall generator_call ?inner |- Forall _ ?inner =>
      apply (Forall_impl _ _ _ H);
      let Hop := fresh "Hop" in
      intros ? [_ [Hop|[? Hop]]]; rewrite Hop; intros; discriminate
  end.

Ltac member_of_calls :=
  intros ? ?; try discriminate; eval_module_calls; cbn [op_name];
  repeat constructor.

(** C1, as the code has it. For every library and every file system, each
    model the training script builds has six dense layers: relu layers of
    64, 32, 16, 32 and 64 units in this order, then a linear layer as wide
    as the model's input; a run that ends without an exception has built
    one. *)
Theorem network_has_six_dense_layers `{L : Library}
    (w : gmap string (list Byte.byte)) :
  Forall (fun ev => forall i o,
            ev_op ev = Model i o ->
            exists input_dim,
              i = KInput [input_dim] /\
              input_of o = i /\
              dense_layers o =
                [(64, "relu"); (32, "relu"); (16, "relu"); (32, "relu");
                 (64, "relu"); (input_dim, "linear")])
         (trace (exec Edge_Server_AI_Trained w)) /\
  (forall u, result (exec Edge_Server_AI_Trained w) = inr u ->
     "Model" ∈ op_name <$> module_calls (exec Edge_Server_AI_Trained w)).
Proof.
  exec_all Edge_Server_AI_Trained w.
  all: split; [|by member_of_calls].
  all: each_call; intros i o Hop; try discriminate Hop.
  all: injection Hop as <- <-; by eexists.
Qed.

(** C1, as stated, fails: on seven windows of three features the script
    calls [Model] on a network of six dense layers, of widths 64, 32, 16, 32,
    64 and 3, not of five. *)
Lemma five_dense_layers_refuted :
  Model (KInput [3]) demo_network
    ∈ module_calls (exec (L := demo) Edge_Server_AI_Trained demo_fs) /\
  (dense_layers demo_network).*1 = [64; 32; 16; 32; 64; 3] /\
  length (dense_layers demo_network) <> 5.
Proof.
  split; [|split; [done|by cbn]].
  apply list_elem_of_lookup. exists 9. by vm_compute.
Qed.

(** ** The training configuration *)

(** Every call of a training run carries the fixed hyperparameters:
    [compile] gets the Adam optimizer (learning rate 1e-3) and the loss
    "mse", [fit] gets a model compiled so, 50 epochs and batch size 64;
    nothing the run reads changes them.  A run that ends without an
    exception has called [compile] and [fit]. *)
Lemma calls_carry_fixed_hyperparameters `{L : Library}
    (w : gmap string (list Byte.byte)) :
  Forall (fun ev => fixed_hyperparameters (ev_op ev))
         (trace (exec Edge_Server_AI_Trained w)) /\
  (forall u, result (exec Edge_Server_AI_Trained w) = inr u ->
     "model.compile"
       ∈ op_name <$> module_calls (exec Edge_Server_AI_Trained w) /\
     "model.fit"
       ∈ op_name <$> module_calls (exec Edge_Server_AI_Trained w)).
Proof.
  exec_all Edge_Server_AI_Trained w.
  all: split; [by each_call|].
  all: intros u Hu; try discriminate Hu.
  split; eval_module_calls; cbn [op_name]; repeat constructor.
Qed.

(** ** The autoencoder *)

Lemma tuple_getitem_Some (t : list nat) (i v : nat) :
  tuple_getitem t i = inr v -> t !! i = Some v.
Proof. unfold tuple_getitem. destruct (t !! i); naive_solver. Qed.

(** Both parts of a split keep the axes of the array after the first. *)
Lemma split_shapes `{L : Library} data test_size seed a_train a_test :
  sklearn_train_test_split data test_size seed = inr (a_train, a_test) ->
  exists n n_train n_test inner,
    shape data = n :: inner /\
    shape a_train = n_train :: inner /\
    shape a_test = n_test :: inner.
Proof.
  intros Hsplit.
  destruct (sklearn_train_test_split_inv _ _ _ _ _ Hsplit)
    as (dt & inner & rows & n_train & n_test & rows_train & rows_test
        & -> & _ & _ & _ & -> & ->).
  by exists (length rows), (length rows_train), (length rows_test), inner.
Qed.

Ltac solve_autoencoder_fit :=
  lazymatch goal with
  | Hsplit : sklearn_train_test_split ?data _ _ = inr (?X_train, ?X_val),
    Hdim : tuple_getitem (shape ?X_train) 1 = inr ?input_dim |- _ =>
      apply tuple_getitem_Some in Hdim;
      destruct (split_shapes _ _ _ _ _ Hsplit)
        as (? & ? & ? & ? & Hdata & Htrain & Hval);
      rewrite Htrain in Hdim;
      exists data, X_train, X_val, input_dim;
      rewrite Hdata, Htrain, Hval;
      split; [repeat constructor|];
      split; [repeat constructor|];
      done
  end.

Ltac solve_autoencoder_saved :=
  lazymatch goal with
  | Hsplit : sklearn_train_test_split ?data _ _ = inr (?X_train, _),
    Hdim : tuple_getitem (shape ?X_train) 1 = inr ?input_dim |- _ =>
      apply tuple_getitem_Some in Hdim;
      destruct (split_shapes _ _ _ _ _ Hsplit)
        as (? & ? & ? & ? & Hdata & Htrain & _);
      rewrite Htrain in Hdim;
      exists data, input_dim;
      rewrite Hdata;
      split; [repeat constructor|];
      done
  end.

(** Every [fit] call of a training run gets the training part of the split
    as input and as target and the validation part as validation input and
    target, on a model whose input has the column count of the loaded array
    and whose last layer is a linear layer of that many units; the model
    handed to [save] has the same shape.  A run that ends without an
    exception has called [fit] and [save]. *)
Lemma fit_and_save_get_autoencoder `{L : Library}
    (w : gmap string (list Byte.byte)) :
  Forall (fun ev =>
            autoencoder_fit (exec Edge_Server_AI_Trained w) (ev_op ev) /\
            autoencoder_saved (exec Edge_Server_AI_Trained w) (ev_op ev))
         (trace (exec Edge_Server_AI_Trained w)) /\
  (forall u, result (exec Edge_Server_AI_Trained w) = inr u ->
     "model.fit" ∈ op_name <$> module_calls (exec Edge_Server_AI_Trained w) /\
     "model.save"
       ∈ op_name <$> module_calls (exec Edge_Server_AI_Trained w)).
Proof.
  exec_all Edge_Server_AI_Trained w.
  all: split;
    [|intros u Hu; try discriminate Hu;
      split; eval_module_calls; cbn [op_name]; repeat constructor].
  all: each_call.
  all: (split; [intros m x y vd epochs bs Hop|intros m path Hop]);
    try discriminate Hop.
  all: first
    [ injection Hop as <- <- <- <- <- <-; cbn [trace]; solve_autoencoder_fit
    | injection Hop as <- <-; split; [done|]; cbn [trace];
      solve_autoencoder_saved ].
Qed.

(** ** The conversion *)

(** Every [convert] call of a conversion run is made on a converter built
    from the loaded model, with [optimizations = [Optimize.DEFAULT]] and the
    generator as [representative_dataset]; when the run ends without an
    exception, the bytes [convert] returned were passed to [write] and are
    the contents of models/autoencoder.tflite. *)
Lemma convert_gets_model_and_generator `{L : Library}
    (w : gmap string (list Byte.byte)) :
  Forall (fun ev =>
            converter_configured
              (exec Edge_Server_AI_CONVERT_to_TFlite w) (ev_op ev))
         (trace (exec Edge_Server_AI_CONVERT_to_TFlite w)) /\
  (forall u, result (exec Edge_Server_AI_CONVERT_to_TFlite w) = inr u ->
     blob_written (exec Edge_Server_AI_CONVERT_to_TFlite w)).
Proof.
  exec_all Edge_Server_AI_CONVERT_to_TFlite w;
    (split; [|intros u Hu; try discriminate Hu]);
    try (each_call; try not_a_generator_call;
         intros cv Hop; try discriminate Hop;
         injection Hop as <-;
         cbn [conv_model optimizations representative_dataset trace];
         (split; [repeat constructor|done])).
  unfold blob_written. eexists _, _. cbn [trace final].
  split; [|split].
  - apply elem_of_cons. right. apply elem_of_cons. right.
    apply elem_of_app. right. by left.
  - apply elem_of_cons. right. apply elem_of_cons. right.
    apply elem_of_app. right. repeat constructor.
  - rewrite lookup_insert_eq, lookup_insert_eq. done.
Qed.

(** ** The files the scripts touch *)

(** Reading the file accesses off the trace of a run. *)
(** A list of accesses is within another: by cases on its elements. *)
Ltac solve_within :=
  let a := fresh "a" in
  let Ha := fresh "Ha" in
  intros a Ha;
  repeat first
    [ apply elem_of_nil in Ha; destruct Ha
    | apply elem_of_cons in Ha as [->|Ha]
    | apply elem_of_app in Ha as [Ha|Ha] ];
  try match goal with
      | Hinner : forall x, x ∈ ?l -> _, Ha : _ ∈ ?l |- _ =>
          apply Hinner in Ha as ->
      end;
  repeat first
    [ apply elem_of_cons; left; reflexivity
    | apply elem_of_cons; right
    | apply elem_of_app; right ].

Ltac eval_accesses :=
  unfold accesses;
  cbn [trace omap list_omap ev_op file_access file_name];
  rewrite ?writable_wb;
  repeat match goal with
         | H : Forall generator_call ?inner
           |- context [omap ?f (?inner ++ ?rest)] =>
             rewrite (omap_app f inner rest);
             pose proof (proj1 (Forall_forall _ _)
                           (generator_calls_accesses inner H));
             clear H
         end;
  cbn [trace omap list_omap ev_op file_access file_name];
  rewrite ?writable_wb.

Ltac solve_file_based :=
  unfold file_based; split; [|split];
  [ eval_accesses; solve_within
  | let Hne := fresh "Hne" in
    intros ? Hne; cbn [final];
    rewrite ?lookup_insert_ne by congruence;
    reflexivity
  | intros ? ?; try discriminate; eval_accesses; solve_within ].

(** C5. For every library and every file system, the calls of a training
    run touch files only by reading data/windows_features.npy and writing
    models/autoencoder.h5, and the run leaves every other file as it was;
    the calls of a conversion run, those of the generator included, touch
    files only by reading models/autoencoder.h5, reading
    data/windows_features.npy and writing models/autoencoder.tflite, and the
    run leaves every other file as it was.  A run that ends without an
    exception has read its input and written its output.  The calls a script
    can make are the constructors of [op]: none of them reads the command
    line, the environment or the network; [print] writes to the console. *)
(** C5. For every library and every file system, the calls of a training
    run touch files only by reading data/windows_features.npy and writing
    models/autoencoder.h5, and the run leaves every other file as it was;
    the calls of a conversion run, those of the generator included, touch
    files only by reading models/autoencoder.h5, reading
    data/windows_features.npy and writing models/autoencoder.tflite, and the
    run leaves every other file as it was.  A run that ends without an
    exception has read its input and written its output.  The calls a script
    can make are the constructors of [op]: none of them reads the command
    line, the environment or the network; [print] writes to the console. *)
Theorem scripts_are_file_based `{L : Library}
    (w : gmap string (list Byte.byte)) :
  file_based training_interface training_interface "models/autoencoder.h5" w
             (exec Edge_Server_AI_Trained w) /\
  file_based conversion_interface
             [Reads "models/autoencoder.h5";
              Writes "models/autoencoder.tflite"]
             "models/autoencoder.tflite" w
             (exec Edge_Server_AI_CONVERT_to_TFlite w).
Proof.
  split.
  - exec_all Edge_Server_AI_Trained w; solve_file_based.
  - exec_all Edge_Server_AI_CONVERT_to_TFlite w; solve_file_based.
Qed.

(** ** Where a rejection comes from *)





(** ** The representative dataset *)

Lemma yielded_yields {A} fr (sample : A -> list ndarray) (l : list A) :
  yielded ((fun x => Event fr (yield_ (sample x)) (inr tt)) <$> l)
  = sample <$> l.
Proof. induction l as [|x l IH]; [done|]. cbn. by f_equal. Qed.

Lemma yielded_after_load fr path r (tr : list event) :
  yielded (Event fr (np_load path) r :: tr) = yielded tr.
Proof. reflexivity. Qed.

Lemma run_generator_array `{L : Library} (w : gmap string (list Byte.byte))
    dt inner rows :
  raises w (np_load "data/windows_features.npy") = None ->
  numpy_load w "data/windows_features.npy" = inr (NdN dt inner rows) ->
  run_function fn_representative_data_gen w
  = Outcome
      (Event (InFunction fn_representative_data_gen)
             (np_load "data/windows_features.npy")
             (inr (NdN dt inner rows))
       :: ((fun i =>
              Event (InFunction fn_representative_data_gen)
                (yield_ [astype (window_at dt inner rows i) "float32"])
                (inr tt)) <$> range 100))
      (inr tt) w.
Proof.
  intros Hr Hload.
  rewrite (run_generator_loaded _ _ Hr Hload), run_yield_loop. reflexivity.
Qed.




(** ** The split is deterministic *)

(** Every split of a training run is the split of the array the feature
    file holds, with [test_size=0.2] and [random_state=42]. *)
Lemma training_splits_loaded_array `{L : Library}
    (w : gmap string (list Byte.byte)) :
  Forall (split_of_loaded_array w) (trace (exec Edge_Server_AI_Trained w)).
Proof.
  exec_all Edge_Server_AI_Trained w; each_call;
    intros data test_size random_state Hop; try discriminate Hop;
    injection Hop as <- <- <-;
    (split; [reflexivity|]); (split; [reflexivity|]);
    (split; [assumption|]);
    intros a_train a_test Hvalue; try discriminate Hvalue;
    injection Hvalue as <- <-; assumption.
Qed.

(** C10. Take a library whose generator returns a permutation of the row
    indices, and two training runs on file systems that hold the same
    feature file.  A split of the first run and a split of the second were
    both called with [test_size=0.2] and [random_state=42] on the same array
    and returned the same training and validation parts; the two parts
    together are the rows of the array, each row once, the validation part
    has a fifth of them, rounded up, and the training part has the rest. *)
Theorem split_is_a_deterministic_partition `{L : Library}
    (w1 w2 : gmap string (list Byte.byte)) (ev1 ev2 : event)
    (data1 data2 : ndarray) (test_size1 test_size2 : Q)
    (random_state1 random_state2 : Z)
    (X_train1 X_val1 X_train2 X_val2 : ndarray) :
  (forall seed n, rng_permutation seed n ≡ₚ seq 0 n) ->
  w1 !! "data/windows_features.npy" = w2 !! "data/windows_features.npy" ->
  ev1 ∈ trace (exec Edge_Server_AI_Trained w1) ->
  ev_op ev1 = train_test_split data1 test_size1 random_state1 ->
  ev_value ev1 = inr (VTuple X_train1 X_val1) ->
  ev2 ∈ trace (exec Edge_Server_AI_Trained w2) ->
  ev_op ev2 = train_test_split data2 test_size2 random_state2 ->
  ev_value ev2 = inr (VTuple X_train2 X_val2) ->
  (test_size1 = 0.2%Q /\ random_state1 = 42%Z) /\
  data1 = data2 /\ X_train1 = X_train2 /\ X_val1 = X_val2 /\
  exists dt inner rows rows_train rows_val,
    data1 = NdN dt inner rows /\
    X_train1 = NdN dt inner rows_train /\
    X_val1 = NdN dt inner rows_val /\
    rows_train ++ rows_val ≡ₚ rows /\
    length rows_val = (length rows + 4) / 5 /\
    length rows_train = length rows - length rows_val.
Proof.
  intros Hperm Hfile Hin1 Hop1 Hval1 Hin2 Hop2 Hval2.
  pose proof (proj1 (Forall_forall _ _) (training_splits_loaded_array w1)
                _ Hin1 _ _ _ Hop1) as (-> & -> & Hload1 & Hsplit1).
  pose proof (proj1 (Forall_forall _ _) (training_splits_loaded_array w2)
                _ Hin2 _ _ _ Hop2) as (_ & _ & Hload2 & Hsplit2).
  specialize (Hsplit1 _ _ Hval1). specialize (Hsplit2 _ _ Hval2).
  unfold numpy_load in Hload1, Hload2. rewrite Hfile in Hload1.
  rewrite Hload1 in Hload2. injection Hload2 as <-.
  rewrite Hsplit1 in Hsplit2. injection Hsplit2 as <- <-.
  split; [by split|]. split; [reflexivity|]. split; [reflexivity|].
  split; [reflexivity|].
  apply (split_fifth_partition data1 42%Z X_train1 X_val1 (Hperm 42%Z) Hsplit1).
Qed.

(** The split of two runs on seven windows of three features: five rows
    for training, two for validation. *)
Lemma split_is_a_deterministic_partition_demo :
  (0.2%Q = 0.2%Q /\ 42%Z = 42%Z) /\
  demo_windows = demo_windows /\ demo_train = demo_train /\
  demo_val = demo_val /\
  exists dt inner rows rows_train rows_val,
    demo_windows = NdN dt inner rows /\
    demo_train = NdN dt inner rows_train /\
    demo_val = NdN dt inner rows_val /\
    rows_train ++ rows_val ≡ₚ rows /\
    length rows_val = (length rows + 4) / 5 /\
    length rows_train = length rows - length rows_val.
Proof.
  apply (split_is_a_deterministic_partition (L := demo) demo_fs demo_fs
           demo_split demo_split demo_windows demo_windows 0.2 0.2 42%Z 42%Z
           demo_train demo_val demo_train demo_val).
  - intros seed n. symmetry. apply Permutation_rev.
  - reflexivity.
  - apply list_elem_of_lookup. exists 1. vm_compute. reflexivity.
  - reflexivity.
  - reflexivity.
  - apply list_elem_of_lookup. exists 1. vm_compute. reflexivity.
  - reflexivity.
  - reflexivity.
Defined.

(** ** The windows the generator yields *)





(** X2. When [np.load] gives a 0-d array, the generator raises IndexError
    at its first slice: it yields nothing and writes no file. *)
Theorem generator_stops_on_0d_array `{L : Library}
    (w : gmap string (list Byte.byte)) dt x :
  raises w (np_load "data/windows_features.npy") = None ->
  numpy_load w "data/windows_features.npy" = inr (Nd0 dt x) ->
  exists e,
    result (run_function fn_representative_data_gen w) = inl e /\
    exn_class e = "IndexError" /\
    yielded (trace (run_function fn_representative_data_gen w)) = [] /\
    final (run_function fn_representative_data_gen w) = w.
Proof.
  intros Hr Hload.
  rewrite (run_generator_loaded _ _ Hr Hload), run_yield_loop_0d.
  by eexists.
Qed.

(** On a library whose feature file holds a 0-d array. *)
Lemma generator_stops_on_0d_array_demo :
  exists e,
    result (run_function (L := demo_0d) fn_representative_data_gen demo_fs)
      = inl e /\
    exn_class e = "IndexError" /\
    yielded (trace (run_function (L := demo_0d)
                      fn_representative_data_gen demo_fs)) = [] /\
    final (run_function (L := demo_0d) fn_representative_data_gen demo_fs)
      = demo_fs.
Proof.
  apply (generator_stops_on_0d_array (L := demo_0d) demo_fs "float64" 7);
    reflexivity.
Defined.

(** ** The calibration, pass by pass *)

Section Calibration.
Context {L : Library}.

(** A pass that raises ends the calibration. *)
Lemma calibrate_stops gen p (w : gmap string (list Byte.byte)) e :
  result (gen w) = inl e ->
  calibrate gen (S p) w = Outcome (trace (gen w)) (inl e) (final (gen w)).
Proof. intros He. cbn [calibrate]. by rewrite He. Qed.

(** A generator that runs to its end and leaves the files alone is run
    again on every pass. *)
Lemma calibrate_replays gen tr p (w : gmap string (list Byte.byte)) :
  gen w = Outcome tr (inr tt) w ->
  calibrate gen p w
  = Outcome (mjoin (replicate p tr)) (inr (replicate p (yielded tr))) w.
Proof.
  intros Hgen. induction p as [|p IH]; [done|].
  cbn [calibrate]. rewrite Hgen. cbn [result trace final]. by rewrite IH.
Qed.

Lemma calibrate_array (w : gmap string (list Byte.byte)) dt inner rows :
  raises w (np_load "data/windows_features.npy") = None ->
  numpy_load w "data/windows_features.npy" = inr (NdN dt inner rows) ->
  calibrate (run_function fn_representative_data_gen) calibration_passes w
  = Outcome (mjoin (replicate calibration_passes (generator_pass dt inner rows)))
            (inr (replicate calibration_passes
                    (representative_samples dt inner rows)))
            w.
Proof.
  intros Hr Hload.
  rewrite (calibrate_replays _ (generator_pass dt inner rows));
    [|by apply run_generator_array].
  unfold generator_pass at 2.
  by rewrite yielded_after_load, yielded_yields.
Qed.

Lemma accesses_generator_pass dt inner rows :
  omap (fun ev => file_access (ev_op ev)) (generator_pass dt inner rows)
  = [Reads "data/windows_features.npy"].
Proof.
  unfold generator_pass. generalize (range 100). intros l.
  change ([Reads "data/windows_features.npy"])
    with (Reads "data/windows_features.npy" :: []).
  cbn [omap list_omap ev_op file_access]. f_equal.
  induction l as [|i l IH]; [done|]. exact IH.
Qed.

Lemma omap_replicated {A B} (f : A -> option B) p (l : list A) :
  omap f (mjoin (replicate p l)) = mjoin (replicate p (omap f l)).
Proof.
  induction p as [|p IH]; [done|].
  change (mjoin (replicate (S p) l)) with (l ++ mjoin (replicate p l)).
  change (mjoin (replicate (S p) (omap f l)))
    with (omap f l ++ mjoin (replicate p (omap f l))).
  by rewrite omap_app, IH.
Qed.

Lemma join_replicate_singleton {A} p (x : A) :
  mjoin (replicate p [x]) = replicate p x.
Proof. induction p as [|p IH]; [done|]. cbn. by f_equal. Qed.

(** [convert] with the script's generator, by what the calibration gives:
    refused, a pass raised, the converter raised, or a blob. *)
Lemma exec_convert_calibrated {A} (P : outcome A -> Prop) pre cv
    (k : list Byte.byte -> script A) (w : gmap string (list Byte.byte)) :
  representative_dataset cv = Some fn_representative_data_gen ->
  let cal :=
    calibrate (run_function fn_representative_data_gen) calibration_passes w in
  (forall e, raises w (convert cv) = Some e ->
     P (Outcome (pre ++ [Event InModule (convert cv) (inl e)]) (inl e) w)) ->
  (raises w (convert cv) = None -> forall e,
     result cal = inl e ->
     P (Outcome (pre ++ trace cal ++ [Event InModule (convert cv) (inl e)])
                (inl e) w)) ->
  (raises w (convert cv) = None -> forall samples e,
     result cal = inr samples ->
     tflite_convert (conv_model cv) (optimizations cv) samples = inl e ->
     P (Outcome (pre ++ trace cal ++ [Event InModule (convert cv) (inl e)])
                (inl e) w)) ->
  (raises w (convert cv) = None -> forall samples blob,
     result cal = inr samples ->
     tflite_convert (conv_model cv) (optimizations cv) samples = inr blob ->
     P (extend (pre ++ trace cal ++ [Event InModule (convert cv) (inr blob)])
               (exec (k blob) w))) ->
  P (extend pre (exec (Call (convert cv) k) w)).
Proof.
  intros Hgen cal Hrefused Hpass Hconv Hreturned.
  destruct (calibrate_facts (run_function fn_representative_data_gen)
              calibration_passes w run_generator_facts) as [Hfinal _].
  fold cal in Hfinal.
  assert (respond run_function (convert cv) w
          = match result cal with
            | inl e => Outcome (trace cal) (inl e) w
            | inr samples =>
                Outcome (trace cal)
                  (tflite_convert (conv_model cv) (optimizations cv) samples) w
            end) as Hrespond.
  { cbn [respond]. rewrite Hgen. fold cal. rewrite Hfinal.
    by destruct (result cal). }
  apply exec_call; [done|done|..]; rewrite Hrespond.
  - intros Hr e He. destruct (result cal) as [e'|samples] eqn:Hcal.
    + cbn [result] in He. injection He as <-. cbn [trace final].
      by apply Hpass.
    + cbn [result] in He. cbn [trace final]. by eapply Hconv.
  - intros Hr blob Hblob. destruct (result cal) as [e'|samples] eqn:Hcal;
      [done|].
    cbn [result] in Hblob. cbn [trace final]. by eapply Hreturned.
Qed.

End Calibration.

Ltac exec_step_calibrated :=
  cbn [mbind script_bind bind call eval conv_model optimizations
       representative_dataset];
  lazymatch goal with
  | |- _ (extend _ (exec (Call (convert _) _) _)) =>
      apply exec_convert_calibrated;
      [ reflexivity | intros ? ? | intros ? ? ? | intros ? ? ? ? ?
      | intros ? ? ? ? ? ]
  | |- _ => exec_step
  end.

Ltac exec_all_calibrated s w :=
  pattern (exec s w);
  lazymatch goal with
  | |- ?P _ =>
      let Q := fresh "Q" in
      set (Q := P); apply exec_start; unfold s
  end;
  repeat exec_step_calibrated;
  lazymatch goal with Q := _ |- _ => subst Q; cbn beta end;
  repeat first [rewrite <- List.app_assoc | progress (cbn [app])].

(** A library that refuses nothing refuses no call of a run. *)
Ltac not_refused Hquiet :=
  lazymatch goal with
  | H : raises _ _ = Some _ |- _ => rewrite Hquiet in H; discriminate H
  end.

Section Conversion.
Context {L : Library}.

(** X3. The conversion needs the feature file as well as the saved model:
    with a library that refuses no call and calibrates at least once, a
    conversion run on files that hold a readable model and no
    data/windows_features.npy ends with the FileNotFoundError of the
    generator's [np.load], raised out of [convert]; it made the calls
    [load_model], [from_keras_model] and [convert] and changed no file. *)
Theorem conversion_stops_without_feature_file
    (w : gmap string (list Byte.byte)) m :
  (forall w' c, raises w' c = None) ->
  keras_load_model w "models/autoencoder.h5" = inr m ->
  w !! "data/windows_features.npy" = None ->
  calibration_passes <> 0 ->
  exists e,
    result (exec Edge_Server_AI_CONVERT_to_TFlite w) = inl e /\
    exn_class e = "FileNotFoundError" /\
    final (exec Edge_Server_AI_CONVERT_to_TFlite w) = w /\
    op_name <$> module_calls (exec Edge_Server_AI_CONVERT_to_TFlite w)
      = ["load_model"; "from_keras_model"; "converter.convert"].
Proof.
  intros Hquiet Hmodel Hmissing Hpasses.
  assert (calibrate (run_function fn_representative_data_gen)
            calibration_passes w
          = Outcome [Event (InFunction fn_representative_data_gen)
                       (np_load "data/windows_features.npy")
                       (inl (Exn "FileNotFoundError"
                               "data/windows_features.npy"))]
                    (inl (Exn "FileNotFoundError" "data/windows_features.npy"))
                    w) as Hcal.
  { destruct calibration_passes as [|p]; [done|].
    assert (numpy_load w "data/windows_features.npy"
            = inl (Exn "FileNotFoundError" "data/windows_features.npy"))
      as Hload by (unfold numpy_load; by rewrite Hmissing).
    rewrite calibrate_stops with (e := Exn "FileNotFoundError" "data/windows_features.npy");
      by rewrite (run_generator_no_array _ _ (Hquiet _ _) Hload). }
  exec_all_calibrated Edge_Server_AI_CONVERT_to_TFlite w;
    try not_refused Hquiet; rewrite ?Hcal in *;
    cbn [result trace final app] in *; try congruence; simplify_eq.
  eexists. split; [done|split; [done|split; [done|]]]; reflexivity.
Qed.

End Conversion.

Section Conversion2.
Context {L : Library}.

(** X4. With a library that refuses no call, a conversion run on files
    that hold a readable model and a feature array with a first axis ends
    without an exception.  The output file holds exactly the bytes the
    converter gives for the loaded model, [Optimize.DEFAULT] and, for every
    calibration pass, the 100 windows of the generator, whatever the file
    held before; no other file changes.  The run reads the model once and
    the feature file once per calibration pass. *)
Theorem conversion_writes_blob_of_calibrated_model
    (w : gmap string (list Byte.byte)) m dt inner rows blob :
  (forall w' c, raises w' c = None) ->
  keras_load_model w "models/autoencoder.h5" = inr m ->
  numpy_load w "data/windows_features.npy" = inr (NdN dt inner rows) ->
  tflite_convert m [Optimize_DEFAULT]
    (replicate calibration_passes (representative_samples dt inner rows))
    = inr blob ->
  result (exec Edge_Server_AI_CONVERT_to_TFlite w) = inr tt /\
  final (exec Edge_Server_AI_CONVERT_to_TFlite w)
    = <["models/autoencoder.tflite" := blob]> w /\
  accesses (exec Edge_Server_AI_CONVERT_to_TFlite w)
    = Reads "models/autoencoder.h5"
      :: replicate calibration_passes (Reads "data/windows_features.npy")
      ++ [Writes "models/autoencoder.tflite";
          Writes "models/autoencoder.tflite"].
Proof.
  intros Hquiet Hmodel Hload Hblob.
  pose proof (calibrate_array w dt inner rows (Hquiet _ _) Hload) as Hcal.
  exec_all_calibrated Edge_Server_AI_CONVERT_to_TFlite w;
    try not_refused Hquiet; rewrite ?Hcal, ?Hmodel in *;
    cbn [result trace final app conv_model optimizations] in *;
    simplify_eq; rewrite ?Hblob in *; simplify_eq.
  split; [done|]. split.
  - rewrite lookup_insert_eq. cbn [default app]. by rewrite insert_insert_eq.
  - unfold accesses. cbn [trace omap list_omap ev_op file_access].
    f_equal.
    rewrite omap_app, omap_replicated, accesses_generator_pass,
      join_replicate_singleton.
    cbn [omap list_omap ev_op file_access file_name].
    by rewrite writable_wb.
Qed.

End Conversion2.

(** ** The split on small and on large enough arrays *)

Section SplitSizes.
Context {L : Library}.

Lemma ceiling_of_fifth n :
  Z.to_nat (Qceiling (0.2 * inject_Z (Z.of_nat n))) = (n + 4) / 5.
Proof.
  unfold Qceiling, Qfloor, Qopp, Qmult, inject_Z. cbn [Qnum Qden].
  change (Z.pos (10 * 1)) with 10%Z.
  apply Nat2Z.inj. rewrite Nat2Z.inj_div, Nat2Z.inj_add.
  change (Z.of_nat 4) with 4%Z. change (Z.of_nat 5) with 5%Z.
  rewrite Z2Nat.id by (Z.div_mod_to_equations; lia).
  Z.div_mod_to_equations; lia.
Qed.

Lemma validate_shuffle_split_fifth_eq n :
  validate_shuffle_split n 0.2
  = if decide (n - (n + 4) / 5 = 0)
    then inl (Exn "ValueError" "the resulting train set will be empty")
    else inr (n - (n + 4) / 5, (n + 4) / 5).
Proof.
  unfold validate_shuffle_split.
  change (Qle_bool 0.2 0 || Qle_bool 1 0.2) with false. cbv iota.
  by rewrite ceiling_of_fifth.
Qed.

(** Fewer than two rows leave nothing to train on. *)
Lemma split_too_few_rows dt inner (rows : list (list Z)) seed :
  length rows <= 1 ->
  sklearn_train_test_split (NdN dt inner rows) 0.2 seed
  = inl (Exn "ValueError" "the resulting train set will be empty").
Proof.
  intros Hle. unfold sklearn_train_test_split. cbn [num_samples].
  rewrite validate_shuffle_split_fifth_eq.
  rewrite decide_True; [done|].
  destruct rows as [|r [|r' rows]]; cbn [length] in *; [done|done|lia].
Qed.

(** Indices taken from a permutation of the row indices are all in range. *)
Lemma rows_at_indices (rows : list (list Z)) (indices : list nat) :
  Forall (fun i => i < length rows) indices ->
  is_Some (mapM (fun i => rows !! i) indices).
Proof.
  intros Hin. apply mapM_is_Some. apply (Forall_impl _ _ _ Hin).
  intros i Hi. by apply lookup_lt_is_Some_2.
Qed.

Lemma permutation_in_range seed n :
  rng_permutation seed n ≡ₚ seq 0 n ->
  Forall (fun i => i < n) (rng_permutation seed n).
Proof.
  intros ->. apply Forall_forall. intros i Hi.
  apply elem_of_seq in Hi. lia.
Qed.

(** Two rows or more are split, whatever the permutation. *)
Lemma split_enough_rows dt inner (rows : list (list Z)) seed :
  (forall n, rng_permutation seed n ≡ₚ seq 0 n) ->
  2 <= length rows ->
  exists rows_train rows_val,
    sklearn_train_test_split (NdN dt inner rows) 0.2 seed
    = inr (NdN dt inner rows_train, NdN dt inner rows_val).
Proof.
  intros Hperm Hge. unfold sklearn_train_test_split. cbn [num_samples].
  rewrite validate_shuffle_split_fifth_eq.
  rewrite decide_False
    by (pose proof (Nat.Div0.div_lt_upper_bound (length rows + 4) 5 (length rows));
        lia).
  cbn [safe_indexing].
  pose proof (permutation_in_range seed _ (Hperm (length rows))) as Hrange.
  destruct (rows_at_indices rows
              (take (length rows - (length rows + 4) / 5)
                 (drop ((length rows + 4) / 5)
                    (rng_permutation seed (length rows)))))
    as [rows_train Htrain].
  { by apply Forall_take, Forall_drop. }
  destruct (rows_at_indices rows
              (take ((length rows + 4) / 5)
                 (rng_permutation seed (length rows))))
    as [rows_val Hval].
  { by apply Forall_take. }
  exists rows_train, rows_val. by rewrite Htrain, Hval.
Qed.

End SplitSizes.

(** ** Training runs with a library that refuses nothing *)

Section Training.
Context {L : Library}.

(** X5. With a library that refuses no call, a training run on a feature
    array of fewer than two rows ends with the ValueError of
    [train_test_split]: after [np.load] and [train_test_split] it calls
    nothing, builds no network and writes no file. *)
Theorem training_stops_on_fewer_than_two_rows
    (w : gmap string (list Byte.byte)) dt inner (rows : list (list Z)) :
  (forall w' c, raises w' c = None) ->
  numpy_load w "data/windows_features.npy" = inr (NdN dt inner rows) ->
  length rows <= 1 ->
  exists e,
    result (exec Edge_Server_AI_Trained w) = inl e /\
    exn_class e = "ValueError" /\
    final (exec Edge_Server_AI_Trained w) = w /\
    op_name <$> module_calls (exec Edge_Server_AI_Trained w)
      = ["np.load"; "train_test_split"].
Proof.
  intros Hquiet Hload Hrows.
  pose proof (split_too_few_rows dt inner rows 42 Hrows) as Hsplit.
  exec_all Edge_Server_AI_Trained w;
    try not_refused Hquiet; rewrite ?Hload in *; simplify_eq;
    rewrite ?Hsplit in *; simplify_eq.
  eexists. split; [done|split; [done|split; [done|]]]; reflexivity.
Qed.

(** X6. With a library that refuses no call, a training run on a 1-d
    feature array of two values or more ends with the IndexError of
    [X_train.shape[1]]: after [np.load] and [train_test_split] it calls
    nothing and writes no file. *)
Theorem training_stops_on_1d_array
    (w : gmap string (list Byte.byte)) dt (rows : list (list Z)) :
  (forall w' c, raises w' c = None) ->
  (forall n, rng_permutation 42 n ≡ₚ seq 0 n) ->
  numpy_load w "data/windows_features.npy" = inr (NdN dt [] rows) ->
  2 <= length rows ->
  result (exec Edge_Server_AI_Trained w)
    = inl (Exn "IndexError" "tuple index out of range") /\
  final (exec Edge_Server_AI_Trained w) = w /\
  op_name <$> module_calls (exec Edge_Server_AI_Trained w)
    = ["np.load"; "train_test_split"].
Proof.
  intros Hquiet Hperm Hload Hrows.
  destruct (split_enough_rows dt [] rows 42 Hperm Hrows)
    as (rows_train & rows_val & Hsplit).
  exec_all Edge_Server_AI_Trained w;
    try not_refused Hquiet; rewrite ?Hload in *; simplify_eq;
    rewrite ?Hsplit in *; simplify_eq;
    try match goal with
        | H : tuple_getitem _ _ = _ |- _ => cbv in H; simplify_eq
        end.
  split; [done|split; [done|]]; reflexivity.
Qed.

(** X7. With a library that refuses no call, a training run on a 2-d
    feature array of two rows or more, [d] features each, ends without an
    exception, and models/autoencoder.h5 then holds the encoding of the
    network for [d] features, compiled with Adam(1e-3) and "mse", with the
    parameters [fit] gave on the two parts of the split; no other file
    changes. *)
Theorem training_saves_the_fitted_autoencoder
    (w : gmap string (list Byte.byte)) dt d (rows : list (list Z)) :
  (forall w' c, raises w' c = None) ->
  (forall n, rng_permutation 42 n ≡ₚ seq 0 n) ->
  numpy_load w "data/windows_features.npy" = inr (NdN dt [d] rows) ->
  2 <= length rows ->
  exists X_train X_val,
    sklearn_train_test_split (NdN dt [d] rows) 0.2 42
      = inr (X_train, X_val) /\
    result (exec Edge_Server_AI_Trained w) = inr tt /\
    final (exec Edge_Server_AI_Trained w)
      = <["models/autoencoder.h5" := h5_encode (trained_model d X_train X_val)]>
          w.
Proof.
  intros Hquiet Hperm Hload Hrows.
  destruct (split_enough_rows dt [d] rows 42 Hperm Hrows)
    as (rows_train & rows_val & Hsplit).
  exists (NdN dt [d] rows_train), (NdN dt [d] rows_val).
  split; [done|].
  exec_all Edge_Server_AI_Trained w;
    try not_refused Hquiet; rewrite ?Hload in *; simplify_eq;
    rewrite ?Hsplit in *; simplify_eq;
    try match goal with
        | H : tuple_getitem _ _ = _ |- _ => cbv in H; simplify_eq
        end.
  split; reflexivity.
Qed.

End Training.

(** ** Training, then conversion *)

Section Composition.
Context {L : Library}.

(** A training run that ends without an exception leaves the encoding of
    the model it saved in models/autoencoder.h5 and changes nothing else. *)
Lemma training_leaves_saved_model (w : gmap string (list Byte.byte)) u m :
  result (exec Edge_Server_AI_Trained w) = inr u ->
  save m "models/autoencoder.h5" ∈ module_calls (exec Edge_Server_AI_Trained w) ->
  final (exec Edge_Server_AI_Trained w)
  = <["models/autoencoder.h5" := h5_encode m]> w.
Proof.
  revert u m.
  exec_all Edge_Server_AI_Trained w; intros u m Hu; try discriminate Hu.
  eval_module_calls. intros Hin.
  repeat (apply elem_of_cons in Hin as [Hin|Hin]; [try discriminate Hin|]).
  - by injection Hin as ->.
  - by apply elem_of_nil in Hin.
Qed.

(** The model a conversion run converts is the one read from
    models/autoencoder.h5. *)
Lemma conversion_converts_loaded_model (w : gmap string (list Byte.byte)) :
  Forall (fun ev => forall cv,
            ev_op ev = convert cv ->
            keras_load_model w "models/autoencoder.h5" = inr (conv_model cv))
         (trace (exec Edge_Server_AI_CONVERT_to_TFlite w)).
Proof.
  exec_all Edge_Server_AI_CONVERT_to_TFlite w;
    each_call; try not_a_generator_call;
    intros cv Hop; try discriminate Hop;
    injection Hop as <-; by cbn [conv_model].
Qed.

(** X8. The two scripts compose through models/autoencoder.h5: after a
    training run that ended without an exception, a conversion run on the
    files it left converts the very model training passed to [save], when
    the library reads back that model from its encoding. *)
Theorem conversion_converts_what_training_saved
    (w : gmap string (list Byte.byte)) u m :
  result (exec Edge_Server_AI_Trained w) = inr u ->
  save m "models/autoencoder.h5" ∈ module_calls (exec Edge_Server_AI_Trained w) ->
  h5_decode (h5_encode m) = inr m ->
  Forall (fun ev => forall cv, ev_op ev = convert cv -> conv_model cv = m)
         (trace (exec Edge_Server_AI_CONVERT_to_TFlite
                   (final (exec Edge_Server_AI_Trained w)))).
Proof.
  intros Hu Hsaved Hback.
  rewrite (training_leaves_saved_model w u m Hu Hsaved).
  apply (Forall_impl _ _ _ (conversion_converts_loaded_model _)).
  intros ev Hev cv Hop. specialize (Hev cv Hop).
  unfold keras_load_model in Hev. rewrite lookup_insert_eq, Hback in Hev.
  by injection Hev.
Qed.

(** X9. A training run on files without data/windows_features.npy ends
    with the FileNotFoundError of [np.load]: that is its only call, and no
    file changes. *)
Theorem training_stops_without_feature_file
    (w : gmap string (list Byte.byte)) :
  raises w (np_load "data/windows_features.npy") = None ->
  w !! "data/windows_features.npy" = None ->
  exists e,
    exn_class e = "FileNotFoundError" /\
    exec Edge_Server_AI_Trained w
    = Outcome [Event InModule (np_load "data/windows_features.npy") (inl e)]
              (inl e) w.
Proof.
  intros Hr Hmissing.
  assert (numpy_load w "data/windows_features.npy"
          = inl (Exn "FileNotFoundError" "data/windows_features.npy"))
    as Hload by (unfold numpy_load; by rewrite Hmissing).
  exists (Exn "FileNotFoundError" "data/windows_features.npy").
  split; [done|].
  exec_all Edge_Server_AI_Trained w; simplify_eq; congruence.
Qed.

(** X10. A conversion run on files without models/autoencoder.h5 ends
    with the exception of [load_model]: that is its only call, the
    generator never runs, and no file changes. *)
Theorem conversion_stops_without_model_file
    (w : gmap string (list Byte.byte)) :
  raises w (load_model "models/autoencoder.h5") = None ->
  w !! "models/autoencoder.h5" = None ->
  exists e,
    exec Edge_Server_AI_CONVERT_to_TFlite w
    = Outcome [Event InModule (load_model "models/autoencoder.h5") (inl e)]
              (inl e) w.
Proof.
  intros Hr Hmissing.
  assert (keras_load_model w "models/autoencoder.h5"
          = inl (Exn "OSError" "models/autoencoder.h5"))
    as Hload by (unfold keras_load_model; by rewrite Hmissing).
  exists (Exn "OSError" "models/autoencoder.h5").
  exec_all Edge_Server_AI_CONVERT_to_TFlite w; simplify_eq; congruence.
Qed.

End Composition.

(** ** The runs above on the small library *)

(** X3 on a saved model without feature file. *)
Lemma conversion_stops_without_feature_file_demo :
  exists e,
    result (exec (L := demo) Edge_Server_AI_CONVERT_to_TFlite model_only_fs)
      = inl e /\
    exn_class e = "FileNotFoundError" /\
    final (exec (L := demo) Edge_Server_AI_CONVERT_to_TFlite model_only_fs)
      = model_only_fs /\
    op_name <$> module_calls
      (exec (L := demo) Edge_Server_AI_CONVERT_to_TFlite model_only_fs)
      = ["load_model"; "from_keras_model"; "converter.convert"].
Proof.
  apply (conversion_stops_without_feature_file (L := demo) model_only_fs
           demo_model).
  - intros w' c. reflexivity.
  - reflexivity.
  - reflexivity.
  - discriminate.
Defined.

(** X4 on a saved model beside the seven windows. *)
Lemma conversion_writes_blob_of_calibrated_model_demo :
  result (exec (L := demo) Edge_Server_AI_CONVERT_to_TFlite
            model_and_windows_fs) = inr tt /\
  final (exec (L := demo) Edge_Server_AI_CONVERT_to_TFlite
           model_and_windows_fs)
    = <["models/autoencoder.tflite" :=
          [Byte.x54; Byte.x46; Byte.x4c; Byte.x33]]> model_and_windows_fs /\
  accesses (exec (L := demo) Edge_Server_AI_CONVERT_to_TFlite
              model_and_windows_fs)
    = Reads "models/autoencoder.h5"
      :: replicate 1 (Reads "data/windows_features.npy")
      ++ [Writes "models/autoencoder.tflite";
          Writes "models/autoencoder.tflite"].
Proof.
  apply (conversion_writes_blob_of_calibrated_model (L := demo)
           model_and_windows_fs demo_model "float64" [3] seven_rows).
  - intros w' c. reflexivity.
  - reflexivity.
  - reflexivity.
  - reflexivity.
Defined.

(** X5 on one window. *)
Lemma training_stops_on_fewer_than_two_rows_demo :
  exists e,
    result (exec (L := demo) Edge_Server_AI_Trained one_window_fs) = inl e /\
    exn_class e = "ValueError" /\
    final (exec (L := demo) Edge_Server_AI_Trained one_window_fs)
      = one_window_fs /\
    op_name <$> module_calls
      (exec (L := demo) Edge_Server_AI_Trained one_window_fs)
      = ["np.load"; "train_test_split"].
Proof.
  apply (training_stops_on_fewer_than_two_rows (L := demo) one_window_fs
           "float64" [3] [[10; 10; 10]]%Z).
  - intros w' c. reflexivity.
  - reflexivity.
  - cbn [length]. lia.
Defined.

(** X6 on five values in a 1-d array. *)
Lemma training_stops_on_1d_array_demo :
  result (exec (L := demo) Edge_Server_AI_Trained flat_fs)
    = inl (Exn "IndexError" "tuple index out of range") /\
  final (exec (L := demo) Edge_Server_AI_Trained flat_fs) = flat_fs /\
  op_name <$> module_calls (exec (L := demo) Edge_Server_AI_Trained flat_fs)
    = ["np.load"; "train_test_split"].
Proof.
  apply (training_stops_on_1d_array (L := demo) flat_fs "float64"
           [[1]; [2]; [3]; [4]; [5]]%Z).
  - intros w' c. reflexivity.
  - intros n. symmetry. apply Permutation_rev.
  - reflexivity.
  - cbn [length]. lia.
Defined.

(** X7 on the seven windows. *)
Lemma training_saves_the_fitted_autoencoder_demo :
  exists X_train X_val,
    sklearn_train_test_split (L := demo) (NdN "float64" [3] seven_rows) 0.2 42
      = inr (X_train, X_val) /\
    result (exec (L := demo) Edge_Server_AI_Trained demo_fs) = inr tt /\
    final (exec (L := demo) Edge_Server_AI_Trained demo_fs)
      = <["models/autoencoder.h5" :=
            @h5_encode demo (trained_model (L := demo) 3 X_train X_val)]>
          demo_fs.
Proof.
  apply (training_saves_the_fitted_autoencoder (L := demo) demo_fs
           "float64" 3 seven_rows).
  - intros w' c. reflexivity.
  - intros n. symmetry. apply Permutation_rev.
  - reflexivity.
  - cbn [length seven_rows]. lia.
Defined.

(** X8 on the seven windows, with a library that reads the trained
    model back. *)
Lemma conversion_converts_what_training_saved_demo :
  Forall (fun ev => forall cv,
            ev_op ev = convert cv -> conv_model cv = demo_trained)
         (trace (exec (L := demo_reading_back) Edge_Server_AI_CONVERT_to_TFlite
                   (final (exec (L := demo_reading_back)
                             Edge_Server_AI_Trained demo_fs)))).
Proof.
  apply (conversion_converts_what_training_saved (L := demo_reading_back)
           demo_fs tt demo_trained).
  - reflexivity.
  - apply list_elem_of_lookup. exists 13. vm_compute. reflexivity.
  - reflexivity.
Defined.

(** X9 on a saved model without feature file. *)
Lemma training_stops_without_feature_file_demo :
  exists e,
    exn_class e = "FileNotFoundError" /\
    exec (L := demo) Edge_Server_AI_Trained model_only_fs
    = Outcome [Event InModule (np_load "data/windows_features.npy") (inl e)]
              (inl e) model_only_fs.
Proof.
  apply (training_stops_without_feature_file (L := demo) model_only_fs);
    reflexivity.
Defined.

(** X10 on the seven windows without a saved model. *)
Lemma conversion_stops_without_model_file_demo :
  exists e,
    exec (L := demo) Edge_Server_AI_CONVERT_to_TFlite demo_fs
    = Outcome [Event InModule (load_model "models/autoencoder.h5") (inl e)]
              (inl e) demo_fs.
Proof.
  apply (conversion_stops_without_model_file (L := demo) demo_fs);
    reflexivity.
Defined.

(** ** Runs that reach the end *)

Section Completion.
Context {L : Library}.

(** A training run on a 2-d array of two rows or more, with a library that
    refuses nothing: it ends without an exception, having made every call of
    the script, and leaves the trained model in models/autoencoder.h5. *)
Lemma training_runs_to_end (w : gmap string (list Byte.byte)) dt d
    (rows : list (list Z)) :
  (forall w' c, raises w' c = None) ->
  (forall n, rng_permutation 42 n ≡ₚ seq 0 n) ->
  numpy_load w "data/windows_features.npy" = inr (NdN dt [d] rows) ->
  2 <= length rows ->
  exists X_train X_val,
    sklearn_train_test_split (NdN dt [d] rows) 0.2 42
      = inr (X_train, X_val) /\
    result (exec Edge_Server_AI_Trained w) = inr tt /\
    module_calls (exec Edge_Server_AI_Trained w)
      = training_run_calls (NdN dt [d] rows) X_train X_val d /\
    final (exec Edge_Server_AI_Trained w)
      = <["models/autoencoder.h5" := h5_encode (trained_model d X_train X_val)]>
          w.
Proof.
  intros Hquiet Hperm Hload Hrows.
  destruct (split_enough_rows dt [d] rows 42 Hperm Hrows)
    as (rows_train & rows_val & Hsplit).
  exists (NdN dt [d] rows_train), (NdN dt [d] rows_val).
  split; [done|].
  exec_all Edge_Server_AI_Trained w;
    try not_refused Hquiet; rewrite ?Hload in *; simplify_eq;
    rewrite ?Hsplit in *; simplify_eq;
    try match goal with
        | H : tuple_getitem _ _ = _ |- _ => cbv in H; simplify_eq
        end.
  split; [reflexivity|]. split; reflexivity.
Qed.

(** A conversion run on a readable model and a feature array with a first
    axis, with a library that refuses nothing and a converter that accepts
    the model and the windows: it ends without an exception, having made
    every call of the script, and leaves the blob in
    models/autoencoder.tflite. *)
Lemma conversion_runs_to_end (w : gmap string (list Byte.byte)) m dt inner
    rows blob :
  (forall w' c, raises w' c = None) ->
  keras_load_model w "models/autoencoder.h5" = inr m ->
  numpy_load w "data/windows_features.npy" = inr (NdN dt inner rows) ->
  tflite_convert m [Optimize_DEFAULT]
    (replicate calibration_passes (representative_samples dt inner rows))
    = inr blob ->
  result (exec Edge_Server_AI_CONVERT_to_TFlite w) = inr tt /\
  module_calls (exec Edge_Server_AI_CONVERT_to_TFlite w)
    = conversion_run_calls m blob /\
  final (exec Edge_Server_AI_CONVERT_to_TFlite w)
    = <["models/autoencoder.tflite" := blob]> w.
Proof.
  intros Hquiet Hmodel Hload Hblob.
  pose proof (calibrate_array w dt inner rows (Hquiet _ _) Hload) as Hcal.
  destruct (calibrate_facts (run_function fn_representative_data_gen)
              calibration_passes w run_generator_facts) as [_ Hinner].
  rewrite Hcal in Hinner. cbn [trace] in Hinner.
  exec_all_calibrated Edge_Server_AI_CONVERT_to_TFlite w;
    try not_refused Hquiet; rewrite ?Hcal, ?Hmodel in *;
    cbn [result trace final app conv_model optimizations] in *;
    simplify_eq; rewrite ?Hblob in *; simplify_eq.
  split; [done|]. split.
  - eval_module_calls. reflexivity.
  - rewrite lookup_insert_eq. cbn [default app]. by rewrite insert_insert_eq.
Qed.



End Completion.

(** ** The claims on runs that fail and on runs that reach the end *)

(** C8. For every library and every file system, the module-level calls of a
    run of the training script are an initial part of: load the array, split,
    build the network (Input, six Dense, Model, Adam, compile), fit, save,
    print; the calls of a run of the conversion script are an initial part
    of: reload the model, convert (from_keras_model, convert), write (open,
    write), print; a run that ends without an exception made all of them,
    each once, in this order.  Such runs exist: with a library that refuses
    no call, the training run on a 2-d array of two rows or more, and the
    conversion run on a readable model and an array with a first axis that
    the converter accepts, end without an exception after every step. *)
Theorem pipeline_runs_in_order `{L : Library}
    (w : gmap string (list Byte.byte)) :
  in_order training_calls training_pipeline (exec Edge_Server_AI_Trained w) /\
  in_order conversion_calls conversion_pipeline
           (exec Edge_Server_AI_CONVERT_to_TFlite w) /\
  (forall dt d (rows : list (list Z)),
     (forall w' c, raises w' c = None) ->
     (forall n, rng_permutation 42 n ≡ₚ seq 0 n) ->
     numpy_load w "data/windows_features.npy" = inr (NdN dt [d] rows) ->
     2 <= length rows ->
     result (exec Edge_Server_AI_Trained w) = inr tt /\
     op_name <$> module_calls (exec Edge_Server_AI_Trained w)
       = training_calls /\
     steps (stage_of <$> module_calls (exec Edge_Server_AI_Trained w))
       = training_pipeline) /\
  (forall m dt inner rows blob,
     (forall w' c, raises w' c = None) ->
     keras_load_model w "models/autoencoder.h5" = inr m ->
     numpy_load w "data/windows_features.npy" = inr (NdN dt inner rows) ->
     tflite_convert m [Optimize_DEFAULT]
       (replicate calibration_passes (representative_samples dt inner rows))
       = inr blob ->
     result (exec Edge_Server_AI_CONVERT_to_TFlite w) = inr tt /\
     op_name <$> module_calls (exec Edge_Server_AI_CONVERT_to_TFlite w)
       = conversion_calls /\
     steps (stage_of
              <$> module_calls (exec Edge_Server_AI_CONVERT_to_TFlite w))
       = conversion_pipeline).
Proof.
  destruct (calls_follow_source_order w) as [Htrain Hconv].
  split; [done|]. split; [done|]. split.
  - intros dt d rows Hquiet Hperm Hload Hrows.
    destruct (training_runs_to_end w dt d rows Hquiet Hperm Hload Hrows)
      as (X_train & X_val & _ & Hres & _ & _).
    split; [done|]. by apply Htrain in Hres.
  - intros m dt inner rows blob Hquiet Hmodel Hload Hblob.
    destruct (conversion_runs_to_end w m dt inner rows blob
                Hquiet Hmodel Hload Hblob) as (Hres & _ & _).
    split; [done|]. by apply Hconv in Hres.
Qed.

(** C8 on a saved model beside the seven windows: both runs make every
    step. *)
Lemma pipeline_runs_in_order_demo :
  (result (exec (L := demo) Edge_Server_AI_Trained model_and_windows_fs)
     = inr tt /\
   op_name <$> module_calls
     (exec (L := demo) Edge_Server_AI_Trained model_and_windows_fs)
     = training_calls /\
   steps (stage_of <$> module_calls
            (exec (L := demo) Edge_Server_AI_Trained model_and_windows_fs))
     = training_pipeline) /\
  (result (exec (L := demo) Edge_Server_AI_CONVERT_to_TFlite
             model_and_windows_fs) = inr tt /\
   op_name <$> module_calls
     (exec (L := demo) Edge_Server_AI_CONVERT_to_TFlite model_and_windows_fs)
     = conversion_calls /\
   steps (stage_of <$> module_calls
            (exec (L := demo) Edge_Server_AI_CONVERT_to_TFlite
               model_and_windows_fs))
     = conversion_pipeline).
Proof.
  split.
  - apply (proj1 (proj2 (proj2
             (pipeline_runs_in_order (L := demo) model_and_windows_fs)))
             "float64" 3 seven_rows).
    + intros w' c. reflexivity.
    + intros n. symmetry. apply Permutation_rev.
    + reflexivity.
    + cbn [length seven_rows]. lia.
  - apply (proj2 (proj2 (proj2
             (pipeline_runs_in_order (L := demo) model_and_windows_fs)))
             demo_model "float64" [3] seven_rows
             [Byte.x54; Byte.x46; Byte.x4c; Byte.x33]).
    + intros w' c. reflexivity.
    + reflexivity.
    + reflexivity.
    + reflexivity.
Defined.

(** C2. For every library and every file system, every call of a training
    run carries the fixed hyperparameters: [compile] gets the Adam optimizer
    (learning rate 1e-3) and the loss "mse", [fit] gets a model compiled so,
    50 epochs and batch size 64; nothing the run reads changes them, and a
    run that ends without an exception has called [compile] and [fit].
    Such runs exist: with a library that refuses no call, the run on a 2-d
    array of two rows or more ends without an exception and has called
    [Adam(1e-3)], [compile] with that optimizer and "mse", and [fit] on the
    model compiled so with 50 epochs and batch size 64. *)
Theorem training_hyperparameters_are_fixed `{L : Library}
    (w : gmap string (list Byte.byte)) :
  Forall (fun ev => fixed_hyperparameters (ev_op ev))
         (trace (exec Edge_Server_AI_Trained w)) /\
  (forall u, result (exec Edge_Server_AI_Trained w) = inr u ->
     "model.compile"
       ∈ op_name <$> module_calls (exec Edge_Server_AI_Trained w) /\
     "model.fit"
       ∈ op_name <$> module_calls (exec Edge_Server_AI_Trained w)) /\
  (forall dt d (rows : list (list Z)),
     (forall w' c, raises w' c = None) ->
     (forall n, rng_permutation 42 n ≡ₚ seq 0 n) ->
     numpy_load w "data/windows_features.npy" = inr (NdN dt [d] rows) ->
     2 <= length rows ->
     result (exec Edge_Server_AI_Trained w) = inr tt /\
     Adam_ 1e-3 ∈ module_calls (exec Edge_Server_AI_Trained w) /\
     exists m m' x y validation_data,
       compile m (Adam 1e-3) "mse"
         ∈ module_calls (exec Edge_Server_AI_Trained w) /\
       fit m' x y validation_data 50 64
         ∈ module_calls (exec Edge_Server_AI_Trained w) /\
       compiled m' = Some (Adam 1e-3, "mse")).
Proof.
  destruct (calls_carry_fixed_hyperparameters w) as [Hall Hmade].
  split; [done|]. split; [done|].
  intros dt d rows Hquiet Hperm Hload Hrows.
  destruct (training_runs_to_end w dt d rows Hquiet Hperm Hload Hrows)
    as (X_train & X_val & _ & Hres & -> & _).
  split; [done|]. unfold training_run_calls. split.
  - apply list_elem_of_lookup. by exists 10.
  - eexists _, _, _, _, _. split; [|split].
    + apply list_elem_of_lookup. by exists 11.
    + apply list_elem_of_lookup. by exists 12.
    + reflexivity.
Qed.

(** C2 on the seven windows. *)
Lemma training_hyperparameters_are_fixed_demo :
  result (exec (L := demo) Edge_Server_AI_Trained demo_fs) = inr tt /\
  Adam_ 1e-3 ∈ module_calls (exec (L := demo) Edge_Server_AI_Trained demo_fs) /\
  exists m m' x y validation_data,
    compile m (Adam 1e-3) "mse"
      ∈ module_calls (exec (L := demo) Edge_Server_AI_Trained demo_fs) /\
    fit m' x y validation_data 50 64
      ∈ module_calls (exec (L := demo) Edge_Server_AI_Trained demo_fs) /\
    compiled m' = Some (Adam 1e-3, "mse").
Proof.
  apply (proj2 (proj2 (training_hyperparameters_are_fixed (L := demo) demo_fs))
           "float64" 3 seven_rows).
  - intros w' c. reflexivity.
  - intros n. symmetry. apply Permutation_rev.
  - reflexivity.
  - cbn [length seven_rows]. lia.
Defined.

(** C3. For every library and every file system, every [fit] call of a
    training run gets the training part of the split as input and as target
    and the validation part as validation input and target, on a model whose
    input has the column count of the loaded array and whose last layer is a
    linear layer of that many units; the model handed to [save] has the same
    shape, and a run that ends without an exception has called [fit] and
    [save].  Such runs exist: with a library that refuses no call, the run
    on a 2-d array of two rows or more, [d] features each, ends without an
    exception, has called [fit] so on the two parts of the split with a
    model from [d] features to [d] linear units, and has saved the fitted
    model. *)
Theorem trained_as_autoencoder `{L : Library}
    (w : gmap string (list Byte.byte)) :
  Forall (fun ev =>
            autoencoder_fit (exec Edge_Server_AI_Trained w) (ev_op ev) /\
            autoencoder_saved (exec Edge_Server_AI_Trained w) (ev_op ev))
         (trace (exec Edge_Server_AI_Trained w)) /\
  (forall u, result (exec Edge_Server_AI_Trained w) = inr u ->
     "model.fit" ∈ op_name <$> module_calls (exec Edge_Server_AI_Trained w) /\
     "model.save"
       ∈ op_name <$> module_calls (exec Edge_Server_AI_Trained w)) /\
  (forall dt d (rows : list (list Z)),
     (forall w' c, raises w' c = None) ->
     (forall n, rng_permutation 42 n ≡ₚ seq 0 n) ->
     numpy_load w "data/windows_features.npy" = inr (NdN dt [d] rows) ->
     2 <= length rows ->
     exists X_train X_val m,
       sklearn_train_test_split (NdN dt [d] rows) 0.2 42
         = inr (X_train, X_val) /\
       result (exec Edge_Server_AI_Trained w) = inr tt /\
       fit m X_train X_train (X_val, X_val) 50 64
         ∈ module_calls (exec Edge_Server_AI_Trained w) /\
       inputs m = KInput [d] /\
       input_of (outputs m) = KInput [d] /\
       last (dense_layers (outputs m)) = Some (d, "linear") /\
       save (trained_model d X_train X_val) "models/autoencoder.h5"
         ∈ module_calls (exec Edge_Server_AI_Trained w) /\
       outputs (trained_model d X_train X_val) = outputs m).
Proof.
  destruct (fit_and_save_get_autoencoder w) as [Hall Hmade].
  split; [done|]. split; [done|].
  intros dt d rows Hquiet Hperm Hload Hrows.
  destruct (training_runs_to_end w dt d rows Hquiet Hperm Hload Hrows)
    as (X_train & X_val & Hsplit & Hres & -> & _).
  exists X_train, X_val. eexists.
  split; [done|]. split; [done|]. unfold training_run_calls. split.
  { apply list_elem_of_lookup. by exists 12. }
  cbn [inputs outputs input_of dense_layers].
  split; [done|]. split; [done|]. split; [done|]. split; [|done].
  apply list_elem_of_lookup. by exists 13.
Qed.

(** C3 on the seven windows. *)
Lemma trained_as_autoencoder_demo :
  exists X_train X_val m,
    sklearn_train_test_split (L := demo) (NdN "float64" [3] seven_rows) 0.2 42
      = inr (X_train, X_val) /\
    result (exec (L := demo) Edge_Server_AI_Trained demo_fs) = inr tt /\
    fit m X_train X_train (X_val, X_val) 50 64
      ∈ module_calls (exec (L := demo) Edge_Server_AI_Trained demo_fs) /\
    inputs m = KInput [3] /\
    input_of (outputs m) = KInput [3] /\
    last (dense_layers (outputs m)) = Some (3, "linear") /\
    save (trained_model (L := demo) 3 X_train X_val) "models/autoencoder.h5"
      ∈ module_calls (exec (L := demo) Edge_Server_AI_Trained demo_fs) /\
    outputs (trained_model (L := demo) 3 X_train X_val) = outputs m.
Proof.
  apply (proj2 (proj2 (trained_as_autoencoder (L := demo) demo_fs))
           "float64" 3 seven_rows).
  - intros w' c. reflexivity.
  - intros n. symmetry. apply Permutation_rev.
  - reflexivity.
  - cbn [length seven_rows]. lia.
Defined.

(** C4. For every library and every file system, every [convert] call of a
    conversion run is made on a converter built from the loaded model, with
    [optimizations = [Optimize.DEFAULT]] and the generator as
    [representative_dataset]; when the run ends without an exception, the
    bytes [convert] returned were passed to [write] and are the contents of
    models/autoencoder.tflite.  Such runs exist: with a library that
    refuses no call, on a readable model [m] and a feature array with a
    first axis that the converter turns into [blob], the run ends without
    an exception, has called [convert] on [m] with the default optimization
    and the generator, has passed [blob] to [write], and leaves [blob] in
    models/autoencoder.tflite. *)
Theorem conversion_passes_model_and_generator `{L : Library}
    (w : gmap string (list Byte.byte)) :
  Forall (fun ev =>
            converter_configured
              (exec Edge_Server_AI_CONVERT_to_TFlite w) (ev_op ev))
         (trace (exec Edge_Server_AI_CONVERT_to_TFlite w)) /\
  (forall u, result (exec Edge_Server_AI_CONVERT_to_TFlite w) = inr u ->
     blob_written (exec Edge_Server_AI_CONVERT_to_TFlite w)) /\
  (forall m dt inner rows blob,
     (forall w' c, raises w' c = None) ->
     keras_load_model w "models/autoencoder.h5" = inr m ->
     numpy_load w "data/windows_features.npy" = inr (NdN dt inner rows) ->
     tflite_convert m [Optimize_DEFAULT]
       (replicate calibration_passes (representative_samples dt inner rows))
       = inr blob ->
     result (exec Edge_Server_AI_CONVERT_to_TFlite w) = inr tt /\
     convert (Converter m [Optimize_DEFAULT]
                        (Some fn_representative_data_gen))
       ∈ module_calls (exec Edge_Server_AI_CONVERT_to_TFlite w) /\
     write (File "models/autoencoder.tflite" "wb") blob
       ∈ module_calls (exec Edge_Server_AI_CONVERT_to_TFlite w) /\
     final (exec Edge_Server_AI_CONVERT_to_TFlite w)
       !! "models/autoencoder.tflite" = Some blob).
Proof.
  destruct (convert_gets_model_and_generator w) as [Hall Hmade].
  split; [done|]. split; [done|].
  intros m dt inner rows blob Hquiet Hmodel Hload Hblob.
  destruct (conversion_runs_to_end w m dt inner rows blob
              Hquiet Hmodel Hload Hblob) as (Hres & -> & ->).
  split; [done|]. unfold conversion_run_calls. split; [|split].
  - apply list_elem_of_lookup. by exists 2.
  - apply list_elem_of_lookup. by exists 4.
  - by rewrite lookup_insert_eq.
Qed.

(** C4 on a saved model beside the seven windows. *)
Lemma conversion_passes_model_and_generator_demo :
  result (exec (L := demo) Edge_Server_AI_CONVERT_to_TFlite
            model_and_windows_fs) = inr tt /\
  convert (Converter demo_model [Optimize_DEFAULT]
                     (Some fn_representative_data_gen))
    ∈ module_calls (exec (L := demo) Edge_Server_AI_CONVERT_to_TFlite
                      model_and_windows_fs) /\
  write (File "models/autoencoder.tflite" "wb")
        [Byte.x54; Byte.x46; Byte.x4c; Byte.x33]
    ∈ module_calls (exec (L := demo) Edge_Server_AI_CONVERT_to_TFlite
                      model_and_windows_fs) /\
  final (exec (L := demo) Edge_Server_AI_CONVERT_to_TFlite
           model_and_windows_fs)
    !! "models/autoencoder.tflite"
    = Some [Byte.x54; Byte.x46; Byte.x4c; Byte.x33].
Proof.
  apply (proj2 (proj2 (conversion_passes_model_and_generator (L := demo)
                         model_and_windows_fs))
           demo_model "float64" [3] seven_rows).
  - intros w' c. reflexivity.
  - reflexivity.
  - reflexivity.
  - reflexivity.
Defined.


